(** * CIS PUMF preprocessing: [load_data] and [_read_cis_pumf]

    A shallow embedding of [src/preprocess.py].  The Python code is a short
    pipeline of pandas calls: the module [Pandas] gives the part of pandas
    those calls use, the definitions after it follow the two Python
    functions statement by statement, and [Samples] holds a few small
    files to run them on.  The properties come last. *)

From Stdlib Require Import List String ZArith Bool Lia PeanoNat.
From Stdlib Require Import Permutation DecimalString.
Import ListNotations.

Open Scope string_scope.
Open Scope list_scope.

(** ** Exceptions and results *)

(** The Python exceptions that the modelled calls raise.  [ReadError]
    stands for whatever [pd.read_stata] raises on a file it cannot parse. *)
Inductive exn : Type :=
| KeyError
| IndexError
| TypeError
| ValueError
| ReadError.

Inductive outcome (A : Type) : Type :=
| Ok (a : A)
| Raise (e : exn).

Arguments Ok {A} a.
Arguments Raise {A} e.

Definition bind {A B : Type} (c : outcome A) (k : A -> outcome B) : outcome B :=
  match c with
  | Ok a => k a
  | Raise e => Raise e
  end.

Notation "x <- c ;; k" := (bind c (fun x => k))
  (at level 61, c at next level, right associativity).

(** A list comprehension [[f(x) for x in xs]]: elements are evaluated from
    left to right and the first exception ends the evaluation. *)
Fixpoint comprehension {A B : Type} (f : A -> outcome B) (xs : list A)
  : outcome (list B) :=
  match xs with
  | [] => Ok []
  | x :: xs' =>
      y <- f x ;;
      ys <- comprehension f xs' ;;
      Ok (y :: ys)
  end.

(** ** The pandas fragment *)

Module Pandas.

(** A cell holds a string (the categorical codes of the PUMF, such as
    ['99'] or ['07']) or a number (years, weights, incomes).  Numbers are
    integers here; fractions and missing numbers (NaN) are left out. *)
Inductive value : Type :=
| VStr (s : string)
| VNum (n : Z).

(** A row keeps the label it has in the frame's index. *)
Record Row : Type := { label : nat; cells : list value }.

(** A frame: the column labels in order, and the rows in order.  The
    cells of a row are aligned with [columns] by position. *)
Record DataFrame : Type := { columns : list string; rows : list Row }.

(** What a cell reads as when a row is shorter than the column axis.
    Frames built by the reader are rectangular, so this is never read. *)
Definition no_cell : value := VStr "".

Definition cell (r : Row) (i : nat) : value := nth i (cells r) no_cell.

(** [series != code] on one cell, [code] a Python [str]. *)
Definition ne_code (v : value) (code : string) : bool :=
  match v with
  | VStr s => negb (String.eqb s code)
  | VNum _ => true
  end.

(** [series.isin(codes)] on one cell, [codes] a list of [str]. *)
Definition isin_codes (v : value) (codes : list string) : bool :=
  match v with
  | VStr s => existsb (String.eqb s) codes
  | VNum _ => false
  end.

(** The positions of label [c] on a column axis, left to right. *)
Fixpoint positions_from (i : nat) (c : string) (axis : list string) : list nat :=
  match axis with
  | [] => []
  | x :: axis' =>
      if String.eqb x c
      then i :: positions_from (S i) c axis'
      else positions_from (S i) c axis'
  end.

Definition positions (c : string) (axis : list string) : list nat :=
  positions_from 0 c axis.

(** A column axis on which every label occurs once. *)
Definition unique_labels (axis : list string) : bool :=
  forallb (fun c => Nat.eqb (List.length (positions c axis)) 1) axis.

(** [df.rename(columns=mapping)]: labels that are keys of the mapping are
    replaced, the others and all the data stay. *)
Fixpoint lookup (k : string) (mapping : list (string * string)) : option string :=
  match mapping with
  | [] => None
  | (k', v) :: mapping' => if String.eqb k' k then Some v else lookup k mapping'
  end.

Definition rename_label (mapping : list (string * string)) (c : string) : string :=
  match lookup c mapping with
  | Some c' => c'
  | None => c
  end.

Definition rename (df : DataFrame) (mapping : list (string * string)) : DataFrame :=
  {| columns := map (rename_label mapping) (columns df); rows := rows df |}.

(** [df[keys]] with a list of labels: [KeyError] when a key is not on the
    axis; otherwise, for each key in turn, every column carrying that
    label (so a label that occurs twice on the axis is taken twice).
    Row labels are kept. *)
Definition take_cells (idx : list nat) (r : Row) : Row :=
  {| label := label r; cells := map (cell r) idx |}.

Definition getitem_list (df : DataFrame) (keys : list string) : outcome DataFrame :=
  if forallb (fun c => existsb (String.eqb c) (columns df)) keys
  then
    let idx := flat_map (fun c => positions c (columns df)) keys in
    Ok {| columns := flat_map (fun c => map (fun _ => c) (positions c (columns df))) keys;
          rows := map (take_cells idx) (rows df) |}
  else Raise KeyError.

(** [df[mask]] with a boolean series: the rows whose entry is true, in
    order, with their labels. *)
Definition select_rows (keep : Row -> bool) (df : DataFrame) : DataFrame :=
  {| columns := columns df; rows := filter keep (rows df) |}.

(** When a label occurs more than once on the axis, [df[col]] is a frame
    rather than a series, and the calls below take other paths through
    pandas (a two-dimensional mask goes to [DataFrame.where], [.iat]
    wants two coordinates).  Likewise [pd.concat] aligns frames whose
    column axes differ.  Those paths are left open: results are stated
    for any behaviour they may have. *)
Class Pandas2D : Type := {
  where_ne : DataFrame -> string -> string -> outcome DataFrame;
  where_isin : DataFrame -> string -> list string -> outcome DataFrame;
  iat_frame : DataFrame -> string -> nat -> outcome value;
  concat_align : list DataFrame -> outcome DataFrame
}.

Section Ops.
Context {pd2 : Pandas2D}.

(** [df[df[col] != code]] *)
Definition getitem_ne (df : DataFrame) (col code : string) : outcome DataFrame :=
  match positions col (columns df) with
  | [] => Raise KeyError
  | [i] => Ok (select_rows (fun r => ne_code (cell r i) code) df)
  | _ => where_ne df col code
  end.

(** [df[df[col].isin(codes)]] *)
Definition getitem_isin (df : DataFrame) (col : string) (codes : list string)
  : outcome DataFrame :=
  match positions col (columns df) with
  | [] => Raise KeyError
  | [i] => Ok (select_rows (fun r => isin_codes (cell r i) codes) df)
  | _ => where_isin df col codes
  end.

(** [df[col].iat[0]]: [IndexError] on a column without entries. *)
Definition iat0 (df : DataFrame) (col : string) : outcome value :=
  match positions col (columns df) with
  | [] => Raise KeyError
  | [i] =>
      match rows df with
      | [] => Raise IndexError
      | r :: _ => Ok (cell r i)
      end
  | _ => iat_frame df col 0
  end.

(** [range(len)] as the new index of a list of rows. *)
Fixpoint reindex_from (i : nat) (rs : list Row) : list Row :=
  match rs with
  | [] => []
  | r :: rs' => {| label := i; cells := cells r |} :: reindex_from (S i) rs'
  end.

Definition axis_eqb (a b : list string) : bool :=
  if list_eq_dec string_dec a b then true else false.

(** [pd.concat(dfs, ignore_index=True)]: [ValueError] ("No objects to
    concatenate") on an empty list; frames that share one column axis
    are stacked in list order under a fresh index [0 .. n-1]. *)
Definition concat (dfs : list DataFrame) : outcome DataFrame :=
  match dfs with
  | [] => Raise ValueError
  | d :: ds =>
      if forallb (fun d' => axis_eqb (columns d') (columns d)) ds
      then Ok {| columns := columns d;
                 rows := reindex_from 0 (flat_map rows dfs) |}
      else concat_align dfs
  end.

End Ops.

End Pandas.

Import Pandas.

(** ** preprocess.py *)

(** [f"{i:02d}"] *)
Definition fmt_02d (i : nat) : string :=
  let s := NilZero.string_of_uint (Nat.to_uint i) in
  if Nat.ltb (String.length s) 2 then ("0" ++ s)%string else s.

(** [range(a, b)] *)
Definition range (a b : nat) : list nat := seq a (b - a).

(** [tqdm(xs)] yields the elements of [xs]; the progress bar is not part
    of the result. *)
Definition tqdm {A : Type} (xs : list A) : list A := xs.

Definition cols : list string :=
  [ "year"; "pumfid"; "personid"; "fweight";
    "sex"; "agegp"; "marst"; "immst"; "yrimmg";
    "prov"; "uszgap";
    "ttinc"; "atinc"; "mtinc"; "gtr";
    "hhsize"; "hhcomp";
    "dwltyp"; "dwtenr"; "repa"; "suit"; "mortg"; "mortgm"; "condmp"; "rentm" ].

Definition col_renamings : list (string * string) :=
  [ ("marstp", "marst"); ("immstp", "immst"); ("yrimmgp", "yrimmg") ].

(** A Python dict iterates in insertion order. *)
Definition missing_codes : list (string * string) :=
  [ ("marst", "99"); ("immst", "9"); ("yrimmg", "9");
    ("dwltyp", "9"); ("dwtenr", "9"); ("suit", "9") ].

Definition agegp_codes_2012_17 : list string := map fmt_02d (range 7 16).
Definition agegp_codes_2018_22 : list string := map fmt_02d (range 6 15).

(** [2012 <= year <= 2017]: comparing an [int] with a [str] is a
    [TypeError]. *)
Definition year_in_2012_17 (year : value) : outcome bool :=
  match year with
  | VNum n => Ok ((2012 <=? n)%Z && (n <=? 2017)%Z)
  | VStr _ => Raise TypeError
  end.

Section Loader.

Context {pd2 : Pandas2D}.

(** File paths, [Path(data_dir).glob(pattern)] as the list of paths in
    the order the file system yields them, and [pd.read_stata]. *)
Variable path : Type.
Variable glob : path -> string -> list path.
Variable read_stata : path -> outcome DataFrame.

(** [for col, code in missing_codes.items(): df = df[df[col] != code]] *)
Fixpoint drop_missing (codes : list (string * string)) (df : DataFrame)
  : outcome DataFrame :=
  match codes with
  | [] => Ok df
  | (col, code) :: codes' =>
      df' <- getitem_ne df col code ;;
      drop_missing codes' df'
  end.

Definition _read_cis_pumf (p : path) : outcome DataFrame :=
  df <- read_stata p ;;
  let df := rename df col_renamings in
  df <- getitem_list df cols ;;
  df <- drop_missing missing_codes df ;;
  year <- iat0 df "year" ;;
  early <- year_in_2012_17 year ;;
  if early
  then getitem_isin df "agegp" agegp_codes_2012_17
  else getitem_isin df "agegp" agegp_codes_2018_22.

Definition load_data (data_dir : path) (pattern : string) : outcome DataFrame :=
  let files := glob data_dir pattern in
  dfs <- comprehension _read_cis_pumf (tqdm files) ;;
  concat dfs.

End Loader.

(** ** Reading a row by column label *)

(** The index of the first column labelled [col] on an axis. *)
Definition col_index (axis : list string) (col : string) : nat :=
  hd 0 (positions col axis).

(** The value a row holds under the label [col], when the frame has such
    a column and the row reaches it. *)
Definition field (df : DataFrame) (col : string) (r : Row) : option value :=
  match positions col (columns df) with
  | [] => None
  | i :: _ => nth_error (cells r) i
  end.

(** Line 96: the parsed file under the 2012-17 labels. *)
Definition canonical (raw : DataFrame) : DataFrame := rename raw col_renamings.

(** Lines 96-97: the parsed file after renaming, cut down to the
    allowlist. *)
Definition allowlisted (raw : DataFrame) : outcome DataFrame :=
  getitem_list (canonical raw) cols.

(** One list is another with some elements left out, the rest in order. *)
Inductive subseq {A : Type} : list A -> list A -> Prop :=
| subseq_nil : subseq [] []
| subseq_keep x l1 l2 : subseq l1 l2 -> subseq (x :: l1) (x :: l2)
| subseq_drop x l1 l2 : subseq l1 l2 -> subseq l1 (x :: l2).

(** The row filters of [_read_cis_pumf] on a frame whose axis is [cols]. *)
Definition passes_codes (axis : list string) (codes : list (string * string))
    (r : Row) : bool :=
  forallb (fun cc => ne_code (cell r (col_index axis (fst cc))) (snd cc)) codes.

Definition agegp_codes_for (early : bool) : list string :=
  if early then agegp_codes_2012_17 else agegp_codes_2018_22.

Definition passes_agegp (early : bool) (r : Row) : bool :=
  isin_codes (cell r (col_index cols "agegp")) (agegp_codes_for early).

(** Lines 98-104 on a frame whose axis is the allowlist. *)
Definition filtered (sel : DataFrame) : outcome DataFrame :=
  match filter (passes_codes cols missing_codes) (rows sel) with
  | [] => Raise IndexError
  | r :: kept =>
      early <- year_in_2012_17 (cell r (col_index cols "year")) ;;
      Ok {| columns := cols; rows := filter (passes_agegp early) (r :: kept) |}
  end.

(** ** The properties of rows that the specification names *)

(** No listed column of the row holds its missing-value code. *)
Definition no_missing_code (df : DataFrame) (r : Row) : Prop :=
  forall col code, In (col, code) missing_codes ->
                   field df col r <> Some (VStr code).

(** The age-group code of the row is on the list that the row's own year
    selects. *)
Definition agegp_fits_own_year (df : DataFrame) (r : Row) : Prop :=
  exists (y : Z) (a : string),
    field df "year" r = Some (VNum y) /\
    field df "agegp" r = Some (VStr a) /\
    In a (agegp_codes_for ((2012 <=? y)%Z && (y <=? 2017)%Z)).

(** Every record of the file carries the same reference year. *)
Definition one_year (raw : DataFrame) : Prop :=
  exists y, Forall (fun r => field (canonical raw) "year" r = Some y) (rows raw).

(** Some listed column of the row holds its missing-value code. *)
Definition has_missing_code (df : DataFrame) (r : Row) : Prop :=
  exists col code, In (col, code) missing_codes /\
                   field df col r = Some (VStr code).

(** A record of reference year [y] that every filter lets through. *)
Definition valid_record (df : DataFrame) (y : Z) (r : Row) : Prop :=
  field df "year" r = Some (VNum y) /\
  (exists a, field df "agegp" r = Some (VStr a) /\
             In a (agegp_codes_for ((2012 <=? y)%Z && (y <=? 2017)%Z))) /\
  no_missing_code df r.

(** The name a variable goes by from 2018 on, as the comment of lines
    70-73 gives it: marst => marstp, immst => immstp, yrimmg => yrimmgp;
    every other variable, the age group among them, keeps its name. *)
Definition post_2018_name (c : string) : string :=
  if String.eqb c "marst" then "marstp"
  else if String.eqb c "immst" then "immstp"
  else if String.eqb c "yrimmg" then "yrimmgp"
  else c.

(** ** Sample files *)

Module Samples.

(** One person record in the order of the allowlist, followed by one
    column the loader does not keep. *)
Definition person (i : nat) (year : Z) (agegp marst dwltyp : string) : Row :=
  {| label := i;
     cells :=
       [ VNum year; VNum (Z.of_nat (100 + i)); VNum 1; VNum 250;
         VStr "1"; VStr agegp; VStr marst; VStr "2"; VStr "6";
         VStr "35"; VStr "1";
         VNum 52000; VNum 43000; VNum 50000; VNum 2000;
         VNum 3; VStr "2";
         VStr dwltyp; VStr "1"; VStr "1"; VStr "1"; VStr "1";
         VNum 1500; VNum 0; VNum 0;
         VStr "v1" ] |}.

Definition names_2012_17 : list string := cols ++ ["vername"].

(** The same axis as released from 2018 on. *)
Definition names_2018_22 : list string := map post_2018_name names_2012_17.

Definition stata (names : list string) (people : list Row) : DataFrame :=
  {| columns := names; rows := people |}.

Definition five (year : Z) (agegp : string) : list Row :=
  map (fun i => person i year agegp "01" "1") (seq 0 5).

(** A file without the variable suit: neither the label nor the cells. *)
Definition names_no_suit : list string :=
  filter (fun c => negb (String.eqb c "suit")) names_2012_17.

Definition without_cell (j : nat) (r : Row) : Row :=
  {| label := label r; cells := firstn j (cells r) ++ skipn (S j) (cells r) |}.

Definition people_no_suit : list Row :=
  map (without_cell (col_index names_2012_17 "suit")) (five 2014 "10").

Inductive sample_path : Type :=
| empty_dir | dir_2015 | dir_two | dir_mixed | dir_no_suit | dir_all_missing
| dir_two_codes
| cis2014 | cis2015 | cis2019 | cis_mixed | cis_no_suit | cis_all_missing
| cis2014_new_names | cis_two_codes | not_stata.

(** Ten records of 2015, the fourth with marital status '99'. *)
Definition people_2015 : list Row :=
  map (fun i => person i 2015 "09" (if Nat.eqb i 3 then "99" else "02") "1")
      (seq 0 10).

(** As [people_2015], with a missing dwelling type in the last record. *)
Definition people_two_codes : list Row :=
  map (fun i => person i 2015 "09" (if Nat.eqb i 3 then "99" else "02")
                       (if Nat.eqb i 9 then "9" else "1"))
      (seq 0 10).

(** Two reference years in one file; the second record has age group
    '15', a code of the 2012-17 list only. *)
Definition people_mixed : list Row :=
  [ person 0 2015 "08" "01" "1"; person 1 2019 "15" "01" "1" ].

Definition sample_read (p : sample_path) : outcome DataFrame :=
  match p with
  | cis2014 => Ok (stata names_2012_17 (five 2014 "10"))
  | cis2015 => Ok (stata names_2012_17 people_2015)
  | cis2019 => Ok (stata names_2018_22 (five 2019 "06"))
  | cis_mixed => Ok (stata names_2012_17 people_mixed)
  | cis_no_suit => Ok (stata names_no_suit people_no_suit)
  | cis_all_missing =>
      Ok (stata names_2012_17
                [ person 0 2016 "09" "99" "1"; person 1 2016 "09" "02" "9" ])
  | cis2014_new_names => Ok (stata names_2018_22 (five 2014 "10"))
  | cis_two_codes => Ok (stata names_2012_17 people_two_codes)
  | _ => Raise ReadError
  end.

Definition sample_glob (data_dir : sample_path) (pattern : string)
  : list sample_path :=
  if String.eqb pattern "*.dta"
  then match data_dir with
       | dir_2015 => [cis2015]
       | dir_two => [cis2014; cis2019]
       | dir_mixed => [cis_mixed]
       | dir_no_suit => [cis2014; cis_no_suit; cis2019]
       | dir_all_missing => [cis2014; cis_all_missing]
       | dir_two_codes => [cis_two_codes]
       | _ => []
       end
  else [].

(** A stand-in for the pandas paths left open in [Pandas2D]. *)
Definition strict : Pandas2D :=
  {| where_ne := fun _ _ _ => Raise ValueError;
     where_isin := fun _ _ _ => Raise ValueError;
     iat_frame := fun _ _ _ => Raise TypeError;
     concat_align := fun _ => Raise ValueError |}.

(** The same directories, listed in the opposite order. *)
Definition sample_glob_rev (data_dir : sample_path) (pattern : string)
  : list sample_path :=
  rev (sample_glob data_dir pattern).

Definition sample_frame (p : sample_path) : outcome DataFrame :=
  _read_cis_pumf (pd2 := strict) sample_path sample_read p.

Definition sample_load (data_dir : sample_path) : outcome DataFrame :=
  load_data (pd2 := strict) sample_path sample_glob sample_read data_dir "*.dta".

Definition sample_load_rev (data_dir : sample_path) : outcome DataFrame :=
  load_data (pd2 := strict) sample_path sample_glob_rev sample_read data_dir "*.dta".

(** The frame of a result, or an empty one when there is none. *)
Definition frame_of (o : outcome DataFrame) : DataFrame :=
  match o with
  | Ok d => d
  | Raise _ => {| columns := []; rows := [] |}
  end.

End Samples.

(** ** More sample files *)

Module MoreSamples.

Import Samples.

(** A record with one cell replaced. *)
Definition with_cell (j : nat) (v : value) (r : Row) : Row :=
  {| label := label r;
     cells := firstn j (cells r) ++ v :: skipn (S j) (cells r) |}.

(** The variables of a file in the opposite order, and its records with
    them. *)
Definition mirrored (df : DataFrame) : DataFrame :=
  {| columns := rev (columns df);
     rows := map (fun r => {| label := label r; cells := rev (cells r) |}) (rows df) |}.

(** A file of 2020: a record with marst = '99', then age groups '05',
    '08' and '15'. *)
Definition people_2020 : list Row :=
  [ person 0 2020 "08" "99" "1"; person 1 2020 "05" "01" "1";
    person 2 2020 "08" "01" "1"; person 3 2020 "15" "01" "1" ].

(** A file of 2020 without a valid age group. *)
Definition people_no_agegp : list Row :=
  [ person 0 2020 "05" "01" "1"; person 1 2020 "15" "01" "1" ].

(** A file whose year is stored as text; its first record has a missing
    dwelling type. *)
Definition people_text_year : list Row :=
  [ with_cell 0 (VStr "2015") (person 0 2015 "09" "01" "9");
    with_cell 0 (VStr "2015") (person 1 2015 "09" "01" "1") ].

Inductive more_path : Type :=
| more_dir
| pumf_2014 | pumf_2014_mirrored | pumf_2020 | pumf_no_agegp
| pumf_text_year | pumf_no_suit | pumf_corrupt.

Definition more_read (p : more_path) : outcome DataFrame :=
  match p with
  | more_dir => Raise ReadError
  | pumf_2014 => Ok (stata names_2012_17 (five 2014 "10"))
  | pumf_2014_mirrored => Ok (mirrored (stata names_2012_17 (five 2014 "10")))
  | pumf_2020 => Ok (stata names_2018_22 people_2020)
  | pumf_no_agegp => Ok (stata names_2018_22 people_no_agegp)
  | pumf_text_year => Ok (stata names_2012_17 people_text_year)
  | pumf_no_suit => Ok (stata names_no_suit people_no_suit)
  | pumf_corrupt => Raise ReadError
  end.

(** A directory given by the list of its files. *)
Definition listing (files : list more_path) (data_dir : more_path) (pattern : string)
  : list more_path :=
  files.

(** Equality of two optional cells, as a test. *)
Definition same_field (o1 o2 : option value) : bool :=
  match o1, o2 with
  | Some (VStr a), Some (VStr b) => String.eqb a b
  | Some (VNum a), Some (VNum b) => Z.eqb a b
  | None, None => true
  | _, _ => false
  end.

Definition more_frame (p : more_path) : outcome DataFrame :=
  _read_cis_pumf (pd2 := strict) more_path more_read p.

Definition more_load (files : list more_path) : outcome DataFrame :=
  load_data (pd2 := strict) more_path (listing files) more_read more_dir "*.dta".

End MoreSamples.

(** ** A file with the age group under another name *)

Module RenamedSamples.

Import Samples.





End RenamedSamples.

(** * Properties *)

Example agegp_codes_2012_17_val :
  agegp_codes_2012_17 = ["07"; "08"; "09"; "10"; "11"; "12"; "13"; "14"; "15"].
Proof. reflexivity. Qed.

Example agegp_codes_2018_22_val :
  agegp_codes_2018_22 = ["06"; "07"; "08"; "09"; "10"; "11"; "12"; "13"; "14"].
Proof. reflexivity. Qed.

(** ** Results and comprehensions *)

Lemma bind_Ok_inv {A B : Type} (c : outcome A) (k : A -> outcome B) (b : B) :
  bind c k = Ok b -> exists a, c = Ok a /\ k a = Ok b.
Proof.
  destruct c as [a | e]; simpl; intros H.
  - exists a. split; [reflexivity | exact H].
  - discriminate H.
Qed.

Lemma comprehension_Ok {A B : Type} (f : A -> outcome B) (xs : list A) (ys : list B) :
  comprehension f xs = Ok ys <-> Forall2 (fun x y => f x = Ok y) xs ys.
Proof.
  revert ys. induction xs as [| x xs IH]; intros ys; simpl.
  - split; intros H.
    + inversion H. constructor.
    + inversion H. reflexivity.
  - split; intros H.
    + apply bind_Ok_inv in H. destruct H as (y & Hy & H).
      apply bind_Ok_inv in H. destruct H as (ys' & Hys & H).
      inversion H; subst. constructor; [exact Hy | apply IH; exact Hys].
    + inversion H as [| x' y l l' Hy Hrest]; subst.
      rewrite Hy. simpl. apply IH in Hrest. rewrite Hrest. reflexivity.
Qed.

Lemma comprehension_Raise {A B : Type} (f : A -> outcome B) (xs : list A) (x : A) (e : exn) :
  In x xs -> f x = Raise e -> exists e', comprehension f xs = Raise e'.
Proof.
  induction xs as [| x0 xs IH]; simpl; intros Hin Hx.
  - contradiction.
  - destruct (f x0) as [y | e0] eqn:E0; simpl.
    + destruct Hin as [-> | Hin]; [congruence |].
      destruct (IH Hin Hx) as (e' & He'). rewrite He'. simpl. eauto.
    + eauto.
Qed.

(** ** Lists *)

Lemma filter_filter {A : Type} (f g : A -> bool) (l : list A) :
  filter g (filter f l) = filter (fun x => f x && g x) l.
Proof.
  induction l as [| x l IH]; simpl; [reflexivity |].
  destruct (f x); simpl; [destruct (g x) |]; rewrite IH; reflexivity.
Qed.

Lemma subseq_refl {A : Type} (l : list A) : subseq l l.
Proof. induction l; constructor; assumption. Qed.

Lemma subseq_filter {A : Type} (f : A -> bool) (l : list A) : subseq (filter f l) l.
Proof.
  induction l as [| x l IH]; simpl; [constructor |].
  destruct (f x); constructor; exact IH.
Qed.

Lemma subseq_trans {A : Type} (l1 l2 l3 : list A) :
  subseq l1 l2 -> subseq l2 l3 -> subseq l1 l3.
Proof.
  intros H12 H23. revert l1 H12.
  induction H23 as [| x l2 l3 H IH | x l2 l3 H IH]; intros l1 H12.
  - exact H12.
  - inversion H12; subst; constructor; apply IH; assumption.
  - constructor. apply IH. exact H12.
Qed.

Lemma subseq_In {A : Type} (l1 l2 : list A) (x : A) :
  subseq l1 l2 -> In x l1 -> In x l2.
Proof.
  induction 1 as [| y l1 l2 H IH | y l1 l2 H IH]; simpl; intros Hin.
  - exact Hin.
  - destruct Hin; [left | right]; auto.
  - right. auto.
Qed.

Lemma existsb_eqb_In (c : string) (l : list string) :
  existsb (String.eqb c) l = true <-> In c l.
Proof.
  rewrite existsb_exists. split.
  - intros (x & Hx & E). apply String.eqb_eq in E. subst. exact Hx.
  - intros H. exists c. split; [exact H | apply String.eqb_refl].
Qed.

(** ** Column positions *)

Lemma positions_from_nil (k : nat) (c : string) (axis : list string) :
  positions_from k c axis = [] <-> ~ In c axis.
Proof.
  revert k. induction axis as [| x axis IH]; intros k; simpl.
  - tauto.
  - destruct (String.eqb x c) eqn:E.
    + apply String.eqb_eq in E. split; [discriminate | intros H; exfalso; auto].
    + apply String.eqb_neq in E. rewrite IH. tauto.
Qed.

Lemma positions_from_nth (k : nat) (c : string) (axis : list string) (i : nat) :
  In i (positions_from k c axis) -> k <= i /\ nth_error axis (i - k) = Some c.
Proof.
  revert k. induction axis as [| x axis IH]; intros k; simpl; [tauto |].
  assert (Hrest : In i (positions_from (S k) c axis) ->
                  k <= i /\ nth_error (x :: axis) (i - k) = Some c).
  { intros H. apply IH in H. destruct H as [Hle Hn]. split; [lia |].
    replace (i - k) with (S (i - S k)) by lia. exact Hn. }
  destruct (String.eqb x c) eqn:E; [| exact Hrest].
  apply String.eqb_eq in E. subst x. simpl. intros [<- | H]; [| auto].
  rewrite Nat.sub_diag. auto.
Qed.

Lemma unique_labels_single (axis : list string) (c : string) :
  unique_labels axis = true -> In c axis -> exists i, positions c axis = [i].
Proof.
  unfold unique_labels. rewrite forallb_forall. intros H Hin.
  specialize (H c Hin). apply Nat.eqb_eq in H.
  destruct (positions c axis) as [| i [| j l]]; simpl in H; try discriminate.
  exists i. reflexivity.
Qed.

(** ** Selecting the allowlist *)

Lemma getitem_list_keys (df sel : DataFrame) (keys : list string) :
  getitem_list df keys = Ok sel ->
  (forall c, In c keys -> In c (columns df)) /\
  rows sel =
    map (take_cells (flat_map (fun c => positions c (columns df)) keys)) (rows df).
Proof.
  unfold getitem_list.
  destruct (forallb _ keys) eqn:E; [| discriminate].
  intros H. inversion H; subst; clear H. simpl. split; [| reflexivity].
  rewrite forallb_forall in E. intros c Hc. apply existsb_eqb_In. auto.
Qed.

Lemma getitem_list_missing (df : DataFrame) (keys : list string) (c : string) :
  In c keys -> ~ In c (columns df) -> getitem_list df keys = Raise KeyError.
Proof.
  intros Hc Hn. unfold getitem_list.
  destruct (forallb _ keys) eqn:E; [| reflexivity].
  rewrite forallb_forall in E. apply E in Hc. apply existsb_eqb_In in Hc.
  contradiction.
Qed.

Lemma labels_of_single (axis keys : list string) :
  (forall c, In c keys -> exists i, positions c axis = [i]) ->
  flat_map (fun c => map (fun _ => c) (positions c axis)) keys = keys.
Proof.
  induction keys as [| c keys IH]; simpl; intros H; [reflexivity |].
  destruct (H c (or_introl eq_refl)) as (i & Hi). rewrite Hi. simpl.
  rewrite IH; [reflexivity | auto].
Qed.

Lemma getitem_list_axis (df sel : DataFrame) (keys : list string) :
  unique_labels (columns df) = true ->
  getitem_list df keys = Ok sel -> columns sel = keys.
Proof.
  intros Hu H. destruct (getitem_list_keys _ _ _ H) as [Hin _].
  unfold getitem_list in H.
  destruct (forallb _ keys); [| discriminate].
  inversion H; subst; clear H. simpl.
  apply labels_of_single. intros c Hc. apply unique_labels_single; auto.
Qed.

Lemma getitem_list_width (df sel : DataFrame) (keys : list string) (r : Row) :
  getitem_list df keys = Ok sel -> In r (rows sel) ->
  List.length (cells r) = List.length (columns sel).
Proof.
  unfold getitem_list.
  destruct (forallb _ keys); [| discriminate].
  intros H Hr. inversion H; subst; clear H. simpl in *.
  apply in_map_iff in Hr. destruct Hr as (r0 & <- & _). simpl.
  rewrite length_map. clear.
  induction keys as [| c keys IH]; simpl; [reflexivity |].
  rewrite !length_app, length_map, IH. reflexivity.
Qed.

(** On the allowlist itself every label has one position. *)
Lemma cols_single (c : string) :
  In c cols -> positions c cols = [col_index cols c].
Proof.
  assert (H : forallb (fun c0 =>
                match positions c0 cols with
                | [i] => Nat.eqb i (col_index cols c0)
                | _ => false
                end) cols = true) by reflexivity.
  rewrite forallb_forall in H. intros Hc. specialize (H c Hc).
  destruct (positions c cols) as [| i [| j l]]; try discriminate.
  apply Nat.eqb_eq in H. congruence.
Qed.

Lemma missing_codes_in_cols (cc : string * string) :
  In cc missing_codes -> In (fst cc) cols.
Proof.
  assert (H : forallb (fun cc0 => existsb (String.eqb (fst cc0)) cols) missing_codes = true)
    by reflexivity.
  rewrite forallb_forall in H. intros Hc. apply existsb_eqb_In. auto.
Qed.

(** ** The per-file filters *)

Section Filters.

Context {pd2 : Pandas2D}.

Lemma drop_missing_single (codes : list (string * string)) (df : DataFrame) :
  (forall cc, In cc codes -> exists i, positions (fst cc) (columns df) = [i]) ->
  drop_missing codes df = Ok (select_rows (passes_codes (columns df) codes) df).
Proof.
  revert df. induction codes as [| [col code] codes IH]; intros df H.
  - simpl. unfold select_rows, passes_codes. simpl.
    destruct df as [ax rs]. simpl. f_equal. f_equal. clear H.
    induction rs as [| r rs IHrs]; simpl; [reflexivity |].
    rewrite <- IHrs. reflexivity.
  - destruct (H (col, code) (or_introl eq_refl)) as (i & Hi). simpl in Hi.
    simpl. unfold getitem_ne. rewrite Hi. simpl.
    rewrite IH by (intros cc Hcc; simpl; apply H; right; exact Hcc).
    unfold select_rows. simpl. rewrite filter_filter. f_equal. f_equal.
    apply filter_ext. intros r. unfold passes_codes. simpl.
    unfold col_index at 2. rewrite Hi. reflexivity.
Qed.

Lemma drop_missing_cols (df : DataFrame) :
  columns df = cols ->
  drop_missing missing_codes df =
    Ok (select_rows (passes_codes cols missing_codes) df).
Proof.
  intros Hc. rewrite drop_missing_single.
  - rewrite Hc. reflexivity.
  - intros cc Hcc. rewrite Hc. eexists. apply cols_single.
    apply missing_codes_in_cols. exact Hcc.
Qed.

Lemma getitem_isin_cols (df : DataFrame) (early : bool) :
  columns df = cols ->
  getitem_isin df "agegp" (agegp_codes_for early) =
    Ok (select_rows (passes_agegp early) df).
Proof.
  intros Hc. unfold getitem_isin. rewrite Hc.
  rewrite cols_single by (apply existsb_eqb_In; reflexivity). reflexivity.
Qed.

Lemma iat0_year_cols (df : DataFrame) :
  columns df = cols ->
  iat0 df "year" =
    match rows df with
    | [] => Raise IndexError
    | r :: _ => Ok (cell r (col_index cols "year"))
    end.
Proof.
  intros Hc. unfold iat0. rewrite Hc.
  rewrite cols_single by (apply existsb_eqb_In; reflexivity). reflexivity.
Qed.

End Filters.

(** ** Fields of a row *)

Lemma field_cell (df : DataFrame) (c : string) (r : Row) (v : value) :
  field df c r = Some v -> cell r (col_index (columns df) c) = v.
Proof.
  unfold field, col_index, cell.
  destruct (positions c (columns df)) as [| i l]; [discriminate |]. simpl.
  intros H. apply nth_error_nth. exact H.
Qed.

Lemma positions_head_nth (axis : list string) (c : string) (i : nat) (l : list nat) :
  positions c axis = i :: l -> nth_error axis i = Some c.
Proof.
  intros H.
  assert (Hp : In i (positions_from 0 c axis)).
  { unfold positions in H. rewrite H. left. reflexivity. }
  apply positions_from_nth in Hp. destruct Hp as [_ Hp].
  rewrite Nat.sub_0_r in Hp. exact Hp.
Qed.

Lemma nth_col_index (c : string) :
  In c cols -> nth_error cols (col_index cols c) = Some c.
Proof.
  intros Hin. exact (positions_head_nth cols c _ [] (cols_single c Hin)).
Qed.

Lemma nth_error_cell (r : Row) (i : nat) :
  i < List.length (cells r) -> nth_error (cells r) i = Some (cell r i).
Proof.
  intros Hlt. unfold cell.
  destruct (nth_error (cells r) i) eqn:E.
  - f_equal. symmetry. apply nth_error_nth. exact E.
  - apply nth_error_None in E. lia.
Qed.

Lemma field_on_axis (df : DataFrame) (c : string) (r : Row) (i : nat) :
  positions c (columns df) = [i] ->
  List.length (cells r) = List.length (columns df) ->
  field df c r = Some (cell r i).
Proof.
  intros Hp Hlen. unfold field. rewrite Hp. apply nth_error_cell.
  rewrite Hlen. apply nth_error_Some.
  rewrite (positions_head_nth _ _ _ _ Hp). discriminate.
Qed.

Lemma field_on_cols (df : DataFrame) (c : string) (r : Row) :
  columns df = cols -> In c cols -> List.length (cells r) = List.length cols ->
  field df c r = Some (cell r (col_index cols c)).
Proof.
  intros Hc Hin Hlen. apply field_on_axis.
  - rewrite Hc. exact (cols_single c Hin).
  - rewrite Hc. exact Hlen.
Qed.

Lemma field_same_cells (a b : DataFrame) (c : string) (r r' : Row) :
  columns a = columns b -> cells r = cells r' -> field a c r = field b c r'.
Proof. unfold field. intros -> ->. reflexivity. Qed.

Lemma ne_code_true (v : value) (code : string) :
  ne_code v code = true <-> v <> VStr code.
Proof.
  destruct v as [s | n]; simpl.
  - rewrite negb_true_iff, String.eqb_neq. split; congruence.
  - split; [discriminate | reflexivity].
Qed.

Lemma isin_codes_true (v : value) (codes : list string) :
  isin_codes v codes = true <-> exists a, v = VStr a /\ In a codes.
Proof.
  destruct v as [s | n]; simpl.
  - rewrite existsb_eqb_In. split.
    + intros H. exists s. auto.
    + intros (a & E & H). inversion E. subst. exact H.
  - split; [discriminate | intros (a & E & _); discriminate].
Qed.

Lemma missing_codes_nonempty (cc : string * string) :
  In cc missing_codes -> snd cc <> "".
Proof.
  assert (H : forallb (fun cc0 => negb (String.eqb (snd cc0) "")) missing_codes = true)
    by reflexivity.
  rewrite forallb_forall in H. intros Hc. apply H in Hc.
  apply negb_true_iff, String.eqb_neq in Hc. exact Hc.
Qed.

(** The cell that [df[cols]] puts under a label is the cell the file has
    under that label. *)
Lemma flat_map_single (axis keys : list string) :
  (forall c, In c keys -> exists i, positions c axis = [i]) ->
  flat_map (fun c => positions c axis) keys = map (col_index axis) keys.
Proof.
  induction keys as [| c keys IH]; simpl; intros H; [reflexivity |].
  destruct (H c (or_introl eq_refl)) as (i & Hi).
  unfold col_index at 1. rewrite Hi. simpl. rewrite IH; auto.
Qed.

Lemma take_cells_cell (axis keys : list string) (r : Row) (j : nat) (c : string) :
  nth_error keys j = Some c ->
  cell (take_cells (map (col_index axis) keys) r) j = cell r (col_index axis c).
Proof.
  intros H. unfold cell at 1, take_cells. cbn [cells]. apply nth_error_nth.
  rewrite !nth_error_map, H. reflexivity.
Qed.

Lemma allowlisted_rows (raw sel : DataFrame) :
  unique_labels (columns (canonical raw)) = true ->
  allowlisted raw = Ok sel ->
  columns sel = cols /\
  rows sel =
    map (take_cells (map (col_index (columns (canonical raw))) cols)) (rows raw).
Proof.
  intros Hu H. unfold allowlisted in H. split.
  - eapply getitem_list_axis; eauto.
  - destruct (getitem_list_keys _ _ _ H) as [Hin Hrows].
    rewrite Hrows, flat_map_single; [reflexivity |].
    intros c Hc. apply unique_labels_single; auto.
Qed.

Lemma allowlisted_width (raw sel : DataFrame) (r : Row) :
  unique_labels (columns (canonical raw)) = true ->
  allowlisted raw = Ok sel -> In r (rows sel) ->
  List.length (cells r) = List.length cols.
Proof.
  intros Hu H Hr. destruct (allowlisted_rows _ _ Hu H) as [Hc _].
  rewrite <- Hc. eapply getitem_list_width; eauto.
Qed.

(** ** The new index *)

Lemma reindex_cells (k : nat) (rs : list Row) :
  map cells (reindex_from k rs) = map cells rs.
Proof.
  revert k. induction rs as [| r rs IH]; intros k; simpl; [reflexivity |].
  rewrite IH. reflexivity.
Qed.

Lemma reindex_labels (k : nat) (rs : list Row) :
  map label (reindex_from k rs) = seq k (List.length rs).
Proof.
  revert k. induction rs as [| r rs IH]; intros k; simpl; [reflexivity |].
  rewrite IH. reflexivity.
Qed.

Lemma reindex_length (k : nat) (rs : list Row) :
  List.length (reindex_from k rs) = List.length rs.
Proof.
  rewrite <- (length_map cells), reindex_cells, length_map. reflexivity.
Qed.

Lemma reindex_In (k : nat) (rs : list Row) (r : Row) :
  In r (reindex_from k rs) -> exists r', In r' rs /\ cells r = cells r'.
Proof.
  revert k. induction rs as [| r0 rs IH]; intros k; simpl; [tauto |].
  intros [<- | H].
  - exists r0. auto.
  - destruct (IH _ H) as (r' & Hr' & E). exists r'. auto.
Qed.

(** ** Stacking the per-file frames *)

Lemma axis_eqb_refl (a : list string) : axis_eqb a a = true.
Proof. unfold axis_eqb. destruct (list_eq_dec string_dec a a); congruence. Qed.

Lemma concat_one_axis {pd2 : Pandas2D} (ax : list string) (ds : list DataFrame) :
  ds <> [] -> Forall (fun d => columns d = ax) ds ->
  concat ds = Ok {| columns := ax; rows := reindex_from 0 (flat_map rows ds) |}.
Proof.
  intros Hne Hall. destruct ds as [| d ds]; [contradiction |].
  inversion Hall as [| d0 ds0 Hd Hds]; subst. unfold concat.
  replace (forallb (fun d' => axis_eqb (columns d') (columns d)) ds) with true.
  - reflexivity.
  - symmetry. apply forallb_forall. intros d' Hd'.
    rewrite Forall_forall in Hds. rewrite (Hds d' Hd'). apply axis_eqb_refl.
Qed.

Lemma map_cells_flat_map (ds : list DataFrame) :
  map cells (flat_map rows ds) = flat_map (fun d => map cells (rows d)) ds.
Proof.
  induction ds as [| d ds IH]; simpl; [reflexivity |].
  rewrite map_app, IH. reflexivity.
Qed.

Lemma filter_all {A : Type} (f : A -> bool) (l : list A) :
  Forall (fun x => f x = true) l -> filter f l = l.
Proof.
  induction 1 as [| x l Hx _ IH]; simpl; [reflexivity |].
  rewrite Hx, IH. reflexivity.
Qed.

Lemma filter_none {A : Type} (f : A -> bool) (l : list A) :
  Forall (fun x => f x = false) l -> filter f l = [].
Proof.
  induction 1 as [| x l Hx _ IH]; simpl; [reflexivity |].
  rewrite Hx, IH. reflexivity.
Qed.

Lemma comprehension_Raise_inv {A B : Type} (f : A -> outcome B) (xs : list A) (e : exn) :
  comprehension f xs = Raise e -> exists x, In x xs /\ f x = Raise e.
Proof.
  induction xs as [| x xs IH]; simpl; [discriminate |].
  destruct (f x) as [y | e0] eqn:E; simpl.
  - destruct (comprehension f xs) as [ys | e1]; simpl; [discriminate |].
    intros H. inversion H; subst. destruct (IH eq_refl) as (x' & Hin & Hx').
    exists x'. auto.
  - intros H. inversion H; subst. exists x. auto.
Qed.

Lemma Forall2_In_r {A B : Type} (R : A -> B -> Prop) (xs : list A) (ys : list B) :
  Forall2 R xs ys -> forall y, In y ys -> exists x, In x xs /\ R x y.
Proof.
  induction 1 as [| x y xs ys Hxy _ IH]; simpl; intros y0 Hin; [contradiction |].
  destruct Hin as [<- | Hin].
  - exists x. auto.
  - destruct (IH y0 Hin) as (x0 & Hx0 & Hr). exists x0. auto.
Qed.

(** ** The filters seen from the parsed file *)

Lemma forallb_ext_in {A : Type} (f g : A -> bool) (l : list A) :
  (forall x, In x l -> f x = g x) -> forallb f l = forallb g l.
Proof.
  induction l as [| x l IH]; simpl; intros H; [reflexivity |].
  rewrite (H x (or_introl eq_refl)), IH; [reflexivity | auto].
Qed.

Lemma passes_codes_take (axis : list string) (rr : Row) :
  passes_codes cols missing_codes (take_cells (map (col_index axis) cols) rr) =
  passes_codes axis missing_codes rr.
Proof.
  unfold passes_codes. apply forallb_ext_in. intros cc Hcc.
  rewrite (take_cells_cell axis cols rr _ (fst cc)); [reflexivity |].
  apply nth_col_index, missing_codes_in_cols. exact Hcc.
Qed.

Lemma passes_agegp_take (axis : list string) (early : bool) (rr : Row) :
  passes_agegp early (take_cells (map (col_index axis) cols) rr) =
  isin_codes (cell rr (col_index axis "agegp")) (agegp_codes_for early).
Proof.
  unfold passes_agegp.
  rewrite (take_cells_cell axis cols rr _ "agegp"); [reflexivity |].
  apply nth_col_index, existsb_eqb_In. reflexivity.
Qed.

Lemma cell_not_code (df : DataFrame) (col code : string) (r : Row) :
  In col (columns df) -> code <> "" ->
  field df col r <> Some (VStr code) ->
  ne_code (cell r (col_index (columns df) col)) code = true.
Proof.
  intros Hin Hcode Hf. unfold field in Hf. unfold col_index.
  destruct (positions col (columns df)) as [| i l] eqn:Hp.
  - apply positions_from_nil in Hp. contradiction.
  - cbn [hd]. apply ne_code_true. unfold cell.
    destruct (nth_error (cells r) i) as [v |] eqn:E.
    + rewrite (nth_error_nth _ _ no_cell E). congruence.
    + apply nth_error_None in E. rewrite nth_overflow by exact E.
      unfold no_cell. congruence.
Qed.

Lemma passes_codes_clean (df : DataFrame) (r : Row) :
  (forall c, In c cols -> In c (columns df)) ->
  no_missing_code df r -> passes_codes (columns df) missing_codes r = true.
Proof.
  intros Hpres Hclean. unfold passes_codes. apply forallb_forall.
  intros [col code] Hcc. cbn [fst snd]. apply cell_not_code.
  - apply Hpres. exact (missing_codes_in_cols _ Hcc).
  - exact (missing_codes_nonempty _ Hcc).
  - apply Hclean. exact Hcc.
Qed.

Lemma passes_codes_missing (df : DataFrame) (r : Row) :
  has_missing_code df r -> passes_codes (columns df) missing_codes r = false.
Proof.
  intros (col & code & Hcc & Hf). apply field_cell in Hf.
  destruct (passes_codes (columns df) missing_codes r) eqn:E; [| reflexivity].
  unfold passes_codes in E. rewrite forallb_forall in E.
  specialize (E (col, code) Hcc). cbn [fst snd] in E.
  rewrite Hf in E. cbn [ne_code] in E. rewrite String.eqb_refl in E.
  discriminate E.
Qed.

Lemma allowlisted_present (raw : DataFrame) :
  (forall c, In c cols -> In c (columns (canonical raw))) ->
  exists sel, allowlisted raw = Ok sel.
Proof.
  intros Hpres. unfold allowlisted, getitem_list.
  replace (forallb (fun c => existsb (String.eqb c) (columns (canonical raw))) cols)
    with true.
  - eexists. reflexivity.
  - symmetry. apply forallb_forall. intros c Hc. apply existsb_eqb_In. auto.
Qed.

(** A frame of valid records of one year goes through the filters whole. *)
Lemma filtered_valid (raw sel : DataFrame) (y : Z) (good : list Row) :
  (forall c, In c cols -> In c (columns (canonical raw))) ->
  filter (passes_codes cols missing_codes) (rows sel) =
    map (take_cells (map (col_index (columns (canonical raw))) cols)) good ->
  good <> [] ->
  Forall (valid_record (canonical raw) y) good ->
  filtered sel =
    Ok {| columns := cols;
          rows := map (take_cells (map (col_index (columns (canonical raw))) cols)) good |}.
Proof.
  intros Hpres Hk Hne Hgood. unfold filtered. rewrite Hk.
  destruct good as [| v vs]; [contradiction |].
  cbn [map]. inversion Hgood as [| v0 vs0 Hv Hvs]; subst.
  destruct Hv as (Hy & _ & _).
  rewrite (take_cells_cell _ cols v _ "year")
    by (apply nth_col_index, existsb_eqb_In; reflexivity).
  rewrite (field_cell _ _ _ _ Hy). cbn [year_in_2012_17 bind].
  f_equal. f_equal.
  change (filter (passes_agegp ((2012 <=? y)%Z && (y <=? 2017)%Z))
            (map (take_cells (map (col_index (columns (canonical raw))) cols)) (v :: vs)) =
          map (take_cells (map (col_index (columns (canonical raw))) cols)) (v :: vs)).
  apply filter_all. apply Forall_forall. intros r Hr.
  apply in_map_iff in Hr. destruct Hr as (rr & <- & Hrr).
  rewrite passes_agegp_take. rewrite Forall_forall in Hgood.
  destruct (Hgood rr Hrr) as (_ & (a & Ha & Hin) & _).
  rewrite (field_cell _ _ _ _ Ha). apply isin_codes_true. exists a. auto.
Qed.



Lemma cols_length : List.length cols = 25.
Proof. reflexivity. Qed.

(** ** The reader and the loader on files with one name per variable *)

Section LoaderFacts.

Context {pd2 : Pandas2D}.
Variable path : Type.
Variables glob glob' : path -> string -> list path.
Variable read_stata : path -> outcome DataFrame.

(** Every PUMF carries each variable under one name: after renaming, no
    label occurs twice on the column axis. *)
Hypothesis stata_axis :
  forall p raw, read_stata p = Ok raw ->
                unique_labels (columns (canonical raw)) = true.

Lemma filtered_from (sel : DataFrame) :
  columns sel = cols ->
  (df <- drop_missing missing_codes sel ;;
   year <- iat0 df "year" ;;
   early <- year_in_2012_17 year ;;
   if early
   then getitem_isin df "agegp" agegp_codes_2012_17
   else getitem_isin df "agegp" agegp_codes_2018_22) = filtered sel.
Proof.
  intros Hc. rewrite (drop_missing_cols sel Hc). cbn [bind].
  set (df := select_rows (passes_codes cols missing_codes) sel).
  assert (Hdf : columns df = cols) by exact Hc.
  rewrite (iat0_year_cols df Hdf). unfold filtered.
  change (rows df) with (filter (passes_codes cols missing_codes) (rows sel)).
  assert (Hrows : rows df = filter (passes_codes cols missing_codes) (rows sel))
    by reflexivity.
  destruct (filter (passes_codes cols missing_codes) (rows sel)) as [| r kept];
    [reflexivity |].
  cbn [bind].
  destruct (year_in_2012_17 (cell r (col_index cols "year"))) as [early | e];
    [| reflexivity].
  cbn [bind].
  pose proof (getitem_isin_cols df early Hdf) as Hisin.
  unfold select_rows in Hisin. rewrite Hrows, Hdf in Hisin.
  destruct early; exact Hisin.
Qed.

Lemma read_unfold (p : path) (raw : DataFrame) :
  read_stata p = Ok raw ->
  _read_cis_pumf path read_stata p = (sel <- allowlisted raw ;; filtered sel).
Proof.
  intros Hraw. unfold _read_cis_pumf. rewrite Hraw. cbn [bind].
  change (getitem_list (rename raw col_renamings) cols) with (allowlisted raw).
  destruct (allowlisted raw) as [sel | e] eqn:Hsel; [| reflexivity].
  cbn [bind]. apply filtered_from.
  apply (allowlisted_rows raw sel (stata_axis p raw Hraw) Hsel).
Qed.

Lemma read_Ok_inv (p : path) (d : DataFrame) :
  _read_cis_pumf path read_stata p = Ok d ->
  exists raw sel,
    read_stata p = Ok raw /\ allowlisted raw = Ok sel /\ filtered sel = Ok d.
Proof.
  intros H. destruct (read_stata p) as [raw | e] eqn:Hraw.
  - rewrite (read_unfold p raw Hraw) in H.
    apply bind_Ok_inv in H. destruct H as (sel & Hsel & Hd).
    exists raw, sel. auto.
  - unfold _read_cis_pumf in H. rewrite Hraw in H. discriminate H.
Qed.

Lemma filtered_Ok_inv (sel d : DataFrame) :
  filtered sel = Ok d ->
  exists r kept early,
    filter (passes_codes cols missing_codes) (rows sel) = r :: kept /\
    year_in_2012_17 (cell r (col_index cols "year")) = Ok early /\
    d = {| columns := cols; rows := filter (passes_agegp early) (r :: kept) |}.
Proof.
  unfold filtered.
  destruct (filter (passes_codes cols missing_codes) (rows sel)) as [| r kept];
    [discriminate |].
  intros H. apply bind_Ok_inv in H. destruct H as (early & He & H).
  inversion H; subst. exists r, kept, early. auto.
Qed.

Lemma filtered_axis (sel d : DataFrame) : filtered sel = Ok d -> columns d = cols.
Proof.
  intros H. apply filtered_Ok_inv in H.
  destruct H as (r & kept & early & _ & _ & ->). reflexivity.
Qed.

Lemma filtered_subseq (sel d : DataFrame) :
  filtered sel = Ok d -> subseq (rows d) (rows sel).
Proof.
  intros H. apply filtered_Ok_inv in H.
  destruct H as (r & kept & early & Hk & _ & ->). cbn [rows].
  rewrite <- Hk. eapply subseq_trans; apply subseq_filter.
Qed.

Lemma read_axis (p : path) (d : DataFrame) :
  _read_cis_pumf path read_stata p = Ok d -> columns d = cols.
Proof.
  intros H. apply read_Ok_inv in H. destruct H as (raw & sel & _ & _ & H).
  eapply filtered_axis; eauto.
Qed.

Lemma reads_axis (files : list path) (ds : list DataFrame) :
  Forall2 (fun p d => _read_cis_pumf path read_stata p = Ok d) files ds ->
  Forall (fun d => columns d = cols) ds.
Proof.
  induction 1 as [| p d files ds Hp _ IH]; constructor; [| exact IH].
  eapply read_axis; eauto.
Qed.

Lemma load_Ok_intro (g : path -> string -> list path)
    (data_dir : path) (pattern : string) (ds : list DataFrame) :
  Forall2 (fun p d => _read_cis_pumf path read_stata p = Ok d)
          (g data_dir pattern) ds ->
  ds <> [] ->
  load_data path g read_stata data_dir pattern =
    Ok {| columns := cols; rows := reindex_from 0 (flat_map rows ds) |}.
Proof.
  intros Hall Hne. unfold load_data, tqdm.
  pose proof (proj2 (comprehension_Ok _ _ _) Hall) as Hc. rewrite Hc.
  cbn [bind]. apply concat_one_axis; [exact Hne | eapply reads_axis; eauto].
Qed.

Lemma load_Ok_inv (g : path -> string -> list path)
    (data_dir : path) (pattern : string) (out : DataFrame) :
  load_data path g read_stata data_dir pattern = Ok out ->
  exists ds,
    Forall2 (fun p d => _read_cis_pumf path read_stata p = Ok d)
            (g data_dir pattern) ds /\
    ds <> [] /\
    out = {| columns := cols; rows := reindex_from 0 (flat_map rows ds) |}.
Proof.
  intros H. pose proof H as H0. unfold load_data, tqdm in H.
  apply bind_Ok_inv in H. destruct H as (ds & Hds & Hcat).
  apply comprehension_Ok in Hds. exists ds.
  assert (Hne : ds <> []) by (intros ->; discriminate Hcat).
  split; [exact Hds |]. split; [exact Hne |].
  rewrite (load_Ok_intro g data_dir pattern ds Hds Hne) in H0.
  inversion H0. reflexivity.
Qed.

(** Every row of the result is, but for its label, a row of the frame
    read from one of the files. *)
Lemma load_row_source (g : path -> string -> list path)
    (data_dir : path) (pattern : string) (out : DataFrame) (r : Row) :
  load_data path g read_stata data_dir pattern = Ok out ->
  In r (rows out) ->
  columns out = cols /\
  exists p d r',
    In p (g data_dir pattern) /\
    _read_cis_pumf path read_stata p = Ok d /\
    In r' (rows d) /\ cells r = cells r'.
Proof.
  intros H Hr. apply load_Ok_inv in H. destruct H as (ds & Hds & _ & ->).
  split; [reflexivity |]. cbn [rows] in Hr.
  apply reindex_In in Hr. destruct Hr as (r' & Hr' & Hcells).
  apply in_flat_map in Hr'. destruct Hr' as (d & Hd & Hr').
  destruct (Forall2_In_r _ _ _ Hds d Hd) as (p & Hp & Hpd).
  exists p, d, r'. auto.
Qed.

(** What the filters establish for a row the reader returns. *)
Lemma read_row (p : path) (d : DataFrame) (r : Row) :
  _read_cis_pumf path read_stata p = Ok d -> In r (rows d) ->
  exists raw sel r0 kept early,
    read_stata p = Ok raw /\ allowlisted raw = Ok sel /\
    In r (rows sel) /\
    List.length (cells r) = List.length cols /\
    passes_codes cols missing_codes r = true /\
    filter (passes_codes cols missing_codes) (rows sel) = r0 :: kept /\
    In r0 (rows sel) /\
    year_in_2012_17 (cell r0 (col_index cols "year")) = Ok early /\
    passes_agegp early r = true.
Proof.
  intros H Hr. apply read_Ok_inv in H. destruct H as (raw & sel & Hraw & Hsel & H).
  apply filtered_Ok_inv in H. destruct H as (r0 & kept & early & Hk & He & ->).
  cbn [rows] in Hr. apply filter_In in Hr. destruct Hr as [Hr Hage].
  rewrite <- Hk in Hr. apply filter_In in Hr. destruct Hr as [Hr Hcodes].
  assert (Hr0 : In r0 (rows sel)).
  { assert (H0 : In r0 (r0 :: kept)) by (left; reflexivity).
    rewrite <- Hk in H0. apply filter_In in H0. exact (proj1 H0). }
  exists raw, sel, r0, kept, early.
  pose proof (allowlisted_width raw sel r (stata_axis p raw Hraw) Hsel Hr) as Hw.
  repeat (split; [assumption |]). assumption.
Qed.

Lemma load_rows_width (g : path -> string -> list path)
    (data_dir : path) (pattern : string) (out : DataFrame) :
  load_data path g read_stata data_dir pattern = Ok out ->
  Forall (fun r => List.length (cells r) = 25) (rows out).
Proof using stata_axis.
  intros H. apply Forall_forall. intros r Hr.
  destruct (load_row_source _ _ _ _ _ H Hr)
    as (_ & p & d & r' & _ & Hd & Hr' & Hcells).
  destruct (read_row p d r' Hd Hr')
    as (raw & sel & r0 & kept & early & _ & _ & _ & Hw & _).
  rewrite Hcells, Hw. exact cols_length.
Qed.

Lemma load_raises (g : path -> string -> list path)
    (data_dir : path) (pattern : string) (p : path) (e : exn) :
  In p (g data_dir pattern) ->
  _read_cis_pumf path read_stata p = Raise e ->
  exists e', load_data path g read_stata data_dir pattern = Raise e'.
Proof using Type.
  intros Hin Hp. unfold load_data, tqdm.
  destruct (comprehension_Raise _ _ _ _ Hin Hp) as (e' & He').
  rewrite He'. exists e'. reflexivity.
Qed.

(** A failed load fails under every other enumeration of the files. *)
Lemma load_raises_perm (g g' : path -> string -> list path)
    (data_dir : path) (pattern : string) (e : exn) :
  Permutation (g data_dir pattern) (g' data_dir pattern) ->
  load_data path g read_stata data_dir pattern = Raise e ->
  exists e', load_data path g' read_stata data_dir pattern = Raise e'.
Proof using stata_axis.
  intros Hperm H. pose proof H as H0. unfold load_data, tqdm in H.
  destruct (comprehension (_read_cis_pumf path read_stata) (g data_dir pattern))
    as [ds | e1] eqn:Hc.
  - apply comprehension_Ok in Hc. destruct ds as [| d ds].
    + inversion Hc as [Hnil |]. rewrite <- Hnil in Hperm.
      apply Permutation_nil in Hperm. unfold load_data, tqdm. rewrite Hperm.
      exists ValueError. reflexivity.
    + rewrite (load_Ok_intro g data_dir pattern (d :: ds) Hc) in H0
        by discriminate.
      discriminate H0.
  - apply comprehension_Raise_inv in Hc. destruct Hc as (p & Hin & Hp).
    apply (load_raises g' data_dir pattern p e1); [| exact Hp].
    eapply Permutation_in; eauto.
Qed.

(** * The claims *)

(** C1 (amended): every table that [load_data] returns has exactly the
    allowlist as its column axis, in the allowlist's order; the allowlist
    has 25 columns, and every row has 25 cells. *)
Theorem load_data_columns (data_dir : path) (pattern : string) (out : DataFrame) :
  load_data path glob read_stata data_dir pattern = Ok out ->
  columns out = cols /\
  List.length (columns out) = 25 /\
  Forall (fun r => List.length (cells r) = 25) (rows out).
Proof.
  intros H. assert (Hax : columns out = cols).
  { apply load_Ok_inv in H. destruct H as (ds & _ & _ & ->). reflexivity. }
  split; [exact Hax |]. split; [rewrite Hax; exact cols_length |].
  exact (load_rows_width _ _ _ _ H).
Qed.

(** In a file whose records share one year, the rows of the allowlisted
    frame carry that year. *)
Lemma allowlisted_year (raw sel : DataFrame) (y0 : value) (r : Row) :
  unique_labels (columns (canonical raw)) = true ->
  allowlisted raw = Ok sel ->
  Forall (fun rr => field (canonical raw) "year" rr = Some y0) (rows raw) ->
  In r (rows sel) ->
  cell r (col_index cols "year") = y0.
Proof using Type.
  intros Hu Hsel Hall Hr.
  destruct (allowlisted_rows raw sel Hu Hsel) as [_ Hrows].
  rewrite Hrows in Hr. apply in_map_iff in Hr. destruct Hr as (rr & <- & Hrr).
  rewrite (take_cells_cell _ cols rr _ "year")
    by (apply nth_col_index, existsb_eqb_In; reflexivity).
  apply field_cell. rewrite Forall_forall in Hall. auto.
Qed.

Lemma cell_same_cells (r r' : Row) (i : nat) :
  cells r = cells r' -> cell r i = cell r' i.
Proof using Type. unfold cell. intros ->. reflexivity. Qed.

(** C2 (amended): when the records of each input file share one year
    value, the age-group code of every output row is on the 2012-17 list
    if the row's year lies in [2012, 2017], and on the 2018-22 list
    otherwise, whatever the magnitude of the year. *)
Theorem load_data_agegp_one_year (data_dir : path) (pattern : string) (out : DataFrame) :
  (forall p raw, In p (glob data_dir pattern) -> read_stata p = Ok raw -> one_year raw) ->
  load_data path glob read_stata data_dir pattern = Ok out ->
  Forall (agegp_fits_own_year out) (rows out).
Proof using stata_axis.
  intros Hone H. apply Forall_forall. intros r Hr.
  destruct (load_row_source _ _ _ _ _ H Hr)
    as (Hax & p & d & r' & Hp & Hd & Hr' & Hcells).
  destruct (read_row p d r' Hd Hr')
    as (raw & sel & r0 & kept & early & Hraw & Hsel & Hrs & Hw & _ & _ & Hr0 & He & Hage).
  destruct (Hone p raw Hp Hraw) as (y0 & Hall).
  pose proof (stata_axis p raw Hraw) as Hu.
  rewrite (allowlisted_year raw sel y0 r0 Hu Hsel Hall Hr0) in He.
  pose proof (allowlisted_year raw sel y0 r' Hu Hsel Hall Hrs) as Hy.
  destruct y0 as [s | n]; [discriminate He |].
  cbn [year_in_2012_17] in He. inversion He as [Hearly]. clear He.
  apply isin_codes_true in Hage. destruct Hage as (a & Ha & Hin).
  assert (Hlen : List.length (cells r) = List.length cols) by (rewrite Hcells; exact Hw).
  exists n, a. split; [| split].
  - rewrite (field_on_cols out "year" r Hax) by
      (try exact Hlen; apply existsb_eqb_In; reflexivity).
    rewrite (cell_same_cells r r' _ Hcells), Hy. reflexivity.
  - rewrite (field_on_cols out "agegp" r Hax) by
      (try exact Hlen; apply existsb_eqb_In; reflexivity).
    rewrite (cell_same_cells r r' _ Hcells), Ha. reflexivity.
  - rewrite Hearly. exact Hin.
Qed.

(** A file with one record that holds a missing-value code, all others
    valid records of year [y]: the reader returns the others. *)
Lemma read_drops_one (p : path) (raw : DataFrame) (y : Z) (before after : list Row) (bad : Row) :
  read_stata p = Ok raw ->
  (forall c, In c cols -> In c (columns (canonical raw))) ->
  rows raw = before ++ bad :: after ->
  has_missing_code (canonical raw) bad ->
  Forall (valid_record (canonical raw) y) (before ++ after) ->
  before ++ after <> [] ->
  _read_cis_pumf path read_stata p =
    Ok {| columns := cols;
          rows := map (take_cells (map (col_index (columns (canonical raw))) cols))
                      (before ++ after) |}.
Proof using stata_axis.
  intros Hraw Hpres Hrows Hbad Hgood Hne.
  rewrite (read_unfold p raw Hraw).
  destruct (allowlisted_present raw Hpres) as (sel & Hsel). rewrite Hsel. cbn [bind].
  apply (filtered_valid raw sel y (before ++ after) Hpres); [| exact Hne | exact Hgood].
  destruct (allowlisted_rows raw sel (stata_axis p raw Hraw) Hsel) as [_ Hsr].
  rewrite Hsr, Hrows, filter_map_swap. f_equal.
  rewrite filter_app. cbn [filter].
  rewrite passes_codes_take, (passes_codes_missing _ _ Hbad).
  apply Forall_app in Hgood. destruct Hgood as [Hb Ha].
  f_equal; apply filter_all; apply Forall_forall; intros rr Hrr;
    rewrite passes_codes_take; apply passes_codes_clean; try exact Hpres.
  - rewrite Forall_forall in Hb. apply (Hb rr Hrr).
  - rewrite Forall_forall in Ha. apply (Ha rr Hrr).
Qed.

(** C3 (amended): no row of the result holds a missing-value code in a
    column of the sentinel table; and a single file of ten records, one of
    them with marst = '99' and the nine others valid records of 2015 (no
    missing-value code, an age-group code of the 2012-17 list), gives nine
    rows, none with marst = '99'. *)
Theorem load_data_no_missing_code (data_dir : path) (pattern : string) :
  (forall out,
      load_data path glob read_stata data_dir pattern = Ok out ->
      Forall (no_missing_code out) (rows out)) /\
  (forall p raw before bad after,
      glob data_dir pattern = [p] ->
      read_stata p = Ok raw ->
      (forall c, In c cols -> In c (columns (canonical raw))) ->
      rows raw = before ++ bad :: after ->
      List.length (rows raw) = 10 ->
      field (canonical raw) "marst" bad = Some (VStr "99") ->
      Forall (valid_record (canonical raw) 2015) (before ++ after) ->
      exists out,
        load_data path glob read_stata data_dir pattern = Ok out /\
        List.length (rows out) = 9 /\
        Forall (fun r => field out "marst" r <> Some (VStr "99")) (rows out)).
Proof using stata_axis.
  assert (Hinv : forall out,
             load_data path glob read_stata data_dir pattern = Ok out ->
             Forall (no_missing_code out) (rows out)).
  { intros out H. apply Forall_forall. intros r Hr col code Hcc.
    destruct (load_row_source _ _ _ _ _ H Hr)
      as (Hax & p & d & r' & _ & Hd & Hr' & Hcells).
    destruct (read_row p d r' Hd Hr')
      as (raw & sel & r0 & kept & early & _ & _ & _ & Hw & Hcodes & _).
    rewrite (field_on_cols out col r Hax (missing_codes_in_cols _ Hcc))
      by (rewrite Hcells; exact Hw).
    rewrite (cell_same_cells r r' _ Hcells).
    unfold passes_codes in Hcodes. rewrite forallb_forall in Hcodes.
    specialize (Hcodes (col, code) Hcc). cbn [fst snd] in Hcodes.
    apply ne_code_true in Hcodes. congruence. }
  split; [exact Hinv |].
  intros p raw before bad after Hglob Hraw Hpres Hrows Hlen Hbad Hgood.
  assert (Hnine : List.length (before ++ after) = 9).
  { rewrite Hrows in Hlen. rewrite length_app in *. cbn [List.length] in Hlen. lia. }
  assert (Hne : before ++ after <> []).
  { intros E. rewrite E in Hnine. discriminate Hnine. }
  assert (Hhas : has_missing_code (canonical raw) bad).
  { exists "marst", "99". split; [| exact Hbad]. left. reflexivity. }
  pose proof (read_drops_one p raw 2015 before after bad
                Hraw Hpres Hrows Hhas Hgood Hne) as Hread.
  set (d := {| columns := cols;
               rows := map (take_cells (map (col_index (columns (canonical raw))) cols))
                           (before ++ after) |}) in Hread.
  assert (Hload : load_data path glob read_stata data_dir pattern =
                  Ok {| columns := cols; rows := reindex_from 0 (flat_map rows [d]) |}).
  { apply (load_Ok_intro glob).
    - rewrite Hglob. constructor; [exact Hread | constructor].
    - discriminate. }
  eexists. split; [exact Hload |]. split.
  - cbn [rows flat_map]. rewrite reindex_length, app_nil_r. unfold d. cbn [rows].
    rewrite length_map. exact Hnine.
  - apply Forall_forall. intros r Hr.
    pose proof (Hinv _ Hload) as Hall. rewrite Forall_forall in Hall.
    apply (Hall r Hr). left. reflexivity.
Qed.

(** C4: when no file matches the pattern, [load_data] raises the
    [ValueError] of [pd.concat] on an empty list; it returns no table, so
    in particular no non-empty one. *)
Theorem load_data_no_files (data_dir : path) (pattern : string) :
  glob data_dir pattern = [] ->
  load_data path glob read_stata data_dir pattern = Raise ValueError /\
  ~ (exists out, load_data path glob read_stata data_dir pattern = Ok out /\
                 rows out <> []).
Proof using Type.
  intros Hglob.
  assert (H : load_data path glob read_stata data_dir pattern = Raise ValueError).
  { unfold load_data, tqdm. rewrite Hglob. reflexivity. }
  split; [exact H |]. intros (out & Hout & _). congruence.
Qed.

(** C5 (amended): when every file is read, the result stacks the per-file
    frames in the order the files were found, rows in their order within
    each file, under the new index 0, 1, ..., n-1 that replaces the
    per-file labels; two files of five rows each give ten rows of 25
    columns each. *)
Theorem load_data_concat (data_dir : path) (pattern : string) (ds : list DataFrame) :
  Forall2 (fun p d => _read_cis_pumf path read_stata p = Ok d)
          (glob data_dir pattern) ds ->
  ds <> [] ->
  exists out,
    load_data path glob read_stata data_dir pattern = Ok out /\
    columns out = cols /\
    map cells (rows out) = flat_map (fun d => map cells (rows d)) ds /\
    map label (rows out) = seq 0 (List.length (rows out)) /\
    (forall d1 d2,
        ds = [d1; d2] ->
        List.length (rows d1) = 5 -> List.length (rows d2) = 5 ->
        List.length (rows out) = 10 /\
        Forall (fun r => List.length (cells r) = 25) (rows out)).
Proof using stata_axis.
  intros Hds Hne.
  pose proof (load_Ok_intro glob data_dir pattern ds Hds Hne) as Hload.
  eexists. split; [exact Hload |]. cbn [columns rows].
  split; [reflexivity |].
  split; [rewrite reindex_cells; apply map_cells_flat_map |].
  split; [rewrite reindex_labels, reindex_length; reflexivity |].
  intros d1 d2 E H1 H2. split.
  - rewrite reindex_length, E. cbn [flat_map].
    rewrite !length_app, H1, H2. reflexivity.
  - exact (load_rows_width _ _ _ _ Hload).
Qed.

(** C6: a file that, after renaming, lacks a column of the allowlist makes
    the reader raise [KeyError], and with it the whole load: [load_data]
    raises and returns no table. *)
Theorem load_data_missing_column (data_dir : path) (pattern : string)
    (p : path) (raw : DataFrame) (c : string) :
  In p (glob data_dir pattern) ->
  read_stata p = Ok raw ->
  In c cols -> ~ In c (columns (canonical raw)) ->
  _read_cis_pumf path read_stata p = Raise KeyError /\
  exists e, load_data path glob read_stata data_dir pattern = Raise e.
Proof using Type.
  intros Hin Hraw Hc Hmiss.
  assert (H : _read_cis_pumf path read_stata p = Raise KeyError).
  { unfold _read_cis_pumf. rewrite Hraw. cbn [bind].
    change (rename raw col_renamings) with (canonical raw).
    rewrite (getitem_list_missing _ _ c Hc Hmiss). reflexivity. }
  split; [exact H |]. exact (load_raises glob data_dir pattern p KeyError Hin H).
Qed.

(** C8: two runs over the same files, whatever the order in which the file
    system lists them, either both fail or both return tables with the
    same columns and the same rows up to order. *)
Theorem load_data_enumeration_order (data_dir : path) (pattern : string) :
  Permutation (glob data_dir pattern) (glob' data_dir pattern) ->
  match load_data path glob read_stata data_dir pattern,
        load_data path glob' read_stata data_dir pattern with
  | Ok out, Ok out' =>
      columns out = columns out' /\
      Permutation (map cells (rows out)) (map cells (rows out'))
  | Raise _, Raise _ => True
  | _, _ => False
  end.
Proof using stata_axis.
  intros Hperm.
  destruct (load_data path glob read_stata data_dir pattern) as [out | e] eqn:H.
  - apply load_Ok_inv in H. destruct H as (ds & Hds & Hne & ->).
    destruct (Permutation_Forall2 Hperm Hds) as (ds' & Hpd & Hds').
    assert (Hne' : ds' <> []).
    { intros ->. apply Permutation_sym, Permutation_nil in Hpd. contradiction. }
    rewrite (load_Ok_intro glob' data_dir pattern ds' Hds' Hne').
    cbn [columns rows]. split; [reflexivity |].
    rewrite !reindex_cells. apply Permutation_map, Permutation_flat_map, Hpd.
  - destruct (load_raises_perm glob glob' data_dir pattern e Hperm H) as (e' & He').
    rewrite He'. exact I.
Qed.

(** C9: when every record of a file holds a missing-value code in one of
    the listed columns, the reader does not return an empty frame: the
    read of the reference year raises [IndexError], and a load that
    includes the file fails. *)
Theorem read_all_records_missing (data_dir : path) (pattern : string)
    (p : path) (raw : DataFrame) :
  read_stata p = Ok raw ->
  (forall c, In c cols -> In c (columns (canonical raw))) ->
  Forall (has_missing_code (canonical raw)) (rows raw) ->
  _read_cis_pumf path read_stata p = Raise IndexError /\
  (In p (glob data_dir pattern) ->
   exists e, load_data path glob read_stata data_dir pattern = Raise e).
Proof using stata_axis.
  intros Hraw Hpres Hall.
  assert (H : _read_cis_pumf path read_stata p = Raise IndexError).
  { rewrite (read_unfold p raw Hraw).
    destruct (allowlisted_present raw Hpres) as (sel & Hsel). rewrite Hsel.
    cbn [bind]. unfold filtered.
    destruct (allowlisted_rows raw sel (stata_axis p raw Hraw) Hsel) as [_ Hsr].
    rewrite Hsr, filter_map_swap, filter_none; [reflexivity |].
    apply Forall_forall. intros rr Hrr. rewrite passes_codes_take.
    apply passes_codes_missing. rewrite Forall_forall in Hall. auto. }
  split; [exact H |]. intros Hin.
  exact (load_raises glob data_dir pattern p IndexError Hin H).
Qed.

(** C10: the reader only drops rows: the frame it returns has the columns
    of the parsed file renamed and cut down to the allowlist, and its rows
    are rows of that frame, unchanged and in their order there. *)
Theorem read_only_drops_rows (p : path) (out : DataFrame) :
  _read_cis_pumf path read_stata p = Ok out ->
  exists raw sel,
    read_stata p = Ok raw /\
    allowlisted raw = Ok sel /\
    rows sel =
      map (take_cells (map (col_index (columns (canonical raw))) cols)) (rows raw) /\
    columns out = columns sel /\
    subseq (rows out) (rows sel).
Proof using stata_axis.
  intros H. apply read_Ok_inv in H. destruct H as (raw & sel & Hraw & Hsel & Hf).
  destruct (allowlisted_rows raw sel (stata_axis p raw Hraw) Hsel) as [Hax Hsr].
  exists raw, sel. split; [exact Hraw |]. split; [exact Hsel |].
  split; [exact Hsr |]. split.
  - rewrite Hax. exact (filtered_axis sel out Hf).
  - exact (filtered_subseq sel out Hf).
Qed.

End LoaderFacts.

(** * The claims on the sample files *)

Import Samples.

Lemma sample_axis (p : sample_path) (raw : DataFrame) :
  sample_read p = Ok raw -> unique_labels (columns (canonical raw)) = true.
Proof.
  intros H. destruct p; try discriminate H; injection H as <-;
    vm_compute; reflexivity.
Qed.

Lemma present_check (axis : list string) :
  forallb (fun c => existsb (String.eqb c) axis) cols = true ->
  forall c, In c cols -> In c axis.
Proof.
  intros H c Hc. rewrite forallb_forall in H. apply existsb_eqb_In. auto.
Qed.

Lemma no_missing_code_check (df : DataFrame) (r : Row) :
  forallb (fun cc => match field df (fst cc) r with
                     | Some (VStr s) => negb (String.eqb s (snd cc))
                     | _ => true
                     end) missing_codes = true ->
  no_missing_code df r.
Proof.
  intros H col code Hcc Hf. rewrite forallb_forall in H.
  specialize (H (col, code) Hcc). cbn [fst snd] in H. rewrite Hf in H.
  rewrite String.eqb_refl in H. discriminate H.
Qed.

Lemma valid_record_check (df : DataFrame) (y : Z) (a : string) (r : Row) :
  field df "year" r = Some (VNum y) ->
  field df "agegp" r = Some (VStr a) ->
  existsb (String.eqb a) (agegp_codes_for ((2012 <=? y)%Z && (y <=? 2017)%Z)) = true ->
  forallb (fun cc => match field df (fst cc) r with
                     | Some (VStr s) => negb (String.eqb s (snd cc))
                     | _ => true
                     end) missing_codes = true ->
  valid_record df y r.
Proof.
  intros Hy Ha Hin Hclean. split; [exact Hy |]. split.
  - exists a. split; [exact Ha | apply existsb_eqb_In; exact Hin].
  - apply no_missing_code_check. exact Hclean.
Qed.

(** C1 on the directory of two files. *)
Lemma load_data_columns_witness :
  exists out,
    sample_load dir_two = Ok out /\
    columns out = cols /\
    List.length (columns out) = 25 /\
    Forall (fun r => List.length (cells r) = 25) (rows out).
Proof.
  eexists. split; [vm_compute; reflexivity |].
  apply (load_data_columns (pd2 := strict) sample_path sample_glob sample_read
           sample_axis dir_two "*.dta").
  vm_compute. reflexivity.
Defined.

(** C1 as stated fails: the rows of a result have 25 columns, not 24. *)
Lemma load_data_columns_not_24 :
  exists out,
    sample_load dir_two = Ok out /\
    rows out <> [] /\
    List.length (columns out) <> 24 /\
    Forall (fun r => List.length (cells r) <> 24) (rows out).
Proof.
  eexists. split; [vm_compute; reflexivity |].
  split; [discriminate |]. split; [vm_compute; discriminate |].
  repeat constructor; vm_compute; discriminate.
Qed.

(** C2 on the directory of two files, each of one year. *)
Lemma load_data_agegp_one_year_witness :
  exists out,
    sample_load dir_two = Ok out /\ Forall (agegp_fits_own_year out) (rows out).
Proof.
  eexists. split; [vm_compute; reflexivity |].
  apply (load_data_agegp_one_year (pd2 := strict) sample_path sample_glob sample_read
           sample_axis dir_two "*.dta").
  - intros p raw Hin Hraw. cbv in Hin.
    destruct Hin as [<- | [<- | []]]; injection Hraw as <-.
    + exists (VNum 2014). repeat constructor.
    + exists (VNum 2019). repeat constructor.
  - vm_compute. reflexivity.
Defined.

(** C2 as stated fails: in a file whose first record is of 2015, a record
    of 2019 with age group '15' is kept, and '15' is not a code of the
    2018-22 list. *)
Lemma load_data_agegp_own_year_fails :
  exists out r,
    sample_load dir_mixed = Ok out /\
    In r (rows out) /\
    field out "year" r = Some (VNum 2019) /\
    field out "agegp" r = Some (VStr "15") /\
    ~ agegp_fits_own_year out r.
Proof.
  eexists. eexists. split; [vm_compute; reflexivity |].
  split; [right; left; reflexivity |].
  split; [reflexivity |]. split; [reflexivity |].
  intros (y & a & Hy & Ha & Hin).
  vm_compute in Hy. vm_compute in Ha.
  injection Hy as <-. injection Ha as <-.
  vm_compute in Hin.
  repeat (destruct Hin as [Hin | Hin]; [discriminate Hin |]). exact Hin.
Qed.

(** C3 on the file of ten records of 2015, the fourth with marst = '99'. *)
Lemma load_data_no_missing_code_witness :
  exists out,
    sample_load dir_2015 = Ok out /\
    List.length (rows out) = 9 /\
    Forall (no_missing_code out) (rows out) /\
    Forall (fun r => field out "marst" r <> Some (VStr "99")) (rows out).
Proof.
  destruct (load_data_no_missing_code (pd2 := strict) sample_path sample_glob
              sample_read sample_axis dir_2015 "*.dta") as [Hinv Hscen].
  destruct (Hscen cis2015 (stata names_2012_17 people_2015)
              (firstn 3 people_2015) (nth 3 people_2015 (person 0 0 "" "" ""))
              (skipn 4 people_2015))
    as (out & Hload & Hlen & Hmarst).
  - reflexivity.
  - reflexivity.
  - apply present_check. vm_compute. reflexivity.
  - reflexivity.
  - reflexivity.
  - reflexivity.
  - repeat (constructor;
            [apply (valid_record_check _ 2015 "09"); vm_compute; reflexivity |]).
    constructor.
  - exists out. split; [exact Hload |]. split; [exact Hlen |].
    split; [exact (Hinv out Hload) | exact Hmarst].
Defined.

(** C3 as stated fails: a single file of 2015 with ten records, exactly
    one of them with marst = '99' and another with dwltyp = '9', gives
    eight rows, not nine. *)
Lemma load_data_nine_rows_fails :
  exists raw out,
    sample_glob dir_two_codes "*.dta" = [cis_two_codes] /\
    sample_read cis_two_codes = Ok raw /\
    List.length (rows raw) = 10 /\
    Forall (fun r => field (canonical raw) "year" r = Some (VNum 2015)) (rows raw) /\
    List.length (filter (fun r => negb (ne_code (cell r (col_index (columns (canonical raw)) "marst")) "99"))
                        (rows raw)) = 1 /\
    sample_load dir_two_codes = Ok out /\
    List.length (rows out) = 8.
Proof.
  eexists. eexists. split; [reflexivity |]. split; [reflexivity |].
  split; [reflexivity |]. split; [repeat constructor |].
  split; [vm_compute; reflexivity |].
  split; [vm_compute; reflexivity | reflexivity].
Qed.

(** C4 on the empty directory. *)
Lemma load_data_no_files_witness :
  sample_load empty_dir = Raise ValueError /\
  ~ (exists out, sample_load empty_dir = Ok out /\ rows out <> []).
Proof.
  apply (load_data_no_files (pd2 := strict) sample_path sample_glob sample_read
           empty_dir "*.dta").
  reflexivity.
Defined.

(** C5 on the files of 2014 and 2019, five valid records each. *)
Lemma load_data_concat_witness :
  exists out,
    sample_load dir_two = Ok out /\
    map cells (rows out) =
      map cells (rows (frame_of (sample_frame cis2014))) ++
      map cells (rows (frame_of (sample_frame cis2019))) /\
    map label (rows out) = seq 0 10 /\
    List.length (rows out) = 10 /\
    Forall (fun r => List.length (cells r) = 25) (rows out).
Proof.
  destruct (load_data_concat (pd2 := strict) sample_path sample_glob sample_read
              sample_axis dir_two "*.dta"
              [frame_of (sample_frame cis2014); frame_of (sample_frame cis2019)])
    as (out & Hload & _ & Hcells & Hlabels & Hscen).
  - constructor; [vm_compute; reflexivity |].
    constructor; [vm_compute; reflexivity | constructor].
  - discriminate.
  - destruct (Hscen _ _ eq_refl) as [Hlen Hwidth];
      [vm_compute; reflexivity | vm_compute; reflexivity |].
    exists out. split; [exact Hload |].
    split; [rewrite Hcells; cbn [flat_map]; rewrite app_nil_r; reflexivity |].
    split; [rewrite Hlabels, Hlen; reflexivity |].
    split; [exact Hlen | exact Hwidth].
Defined.

(** C5 as stated fails: each of the two files gives five rows, and the ten
    rows of the result have 25 columns, not 24; the first row of the first
    file keeps the label 0 it had there. *)
Lemma load_data_concat_not_24 :
  exists d1 d2 out,
    sample_frame cis2014 = Ok d1 /\ List.length (rows d1) = 5 /\
    sample_frame cis2019 = Ok d2 /\ List.length (rows d2) = 5 /\
    sample_load dir_two = Ok out /\
    List.length (rows out) = 10 /\
    Forall (fun r => List.length (cells r) <> 24) (rows out) /\
    hd_error (rows out) = hd_error (rows d1) /\
    hd_error (rows out) <> None.
Proof.
  eexists. eexists. eexists.
  split; [vm_compute; reflexivity |]. split; [reflexivity |].
  split; [vm_compute; reflexivity |]. split; [reflexivity |].
  split; [vm_compute; reflexivity |]. split; [reflexivity |].
  split; [repeat constructor; vm_compute; discriminate |].
  split; [reflexivity | discriminate].
Qed.

(** C6 on a directory whose second file has no column suit. *)
Lemma load_data_missing_column_witness :
  sample_frame cis_no_suit = Raise KeyError /\
  exists e, sample_load dir_no_suit = Raise e.
Proof.
  apply (load_data_missing_column (pd2 := strict) sample_path sample_glob sample_read
           dir_no_suit "*.dta" cis_no_suit (stata names_no_suit people_no_suit)
           "suit").
  - right. left. reflexivity.
  - reflexivity.
  - apply existsb_eqb_In. reflexivity.
  - intros H. apply existsb_eqb_In in H. vm_compute in H. discriminate H.
Defined.

(** C8 on the directory of two files, listed in either order. *)
Lemma load_data_enumeration_order_witness :
  exists out out',
    sample_load dir_two = Ok out /\
    sample_load_rev dir_two = Ok out' /\
    columns out = columns out' /\
    Permutation (map cells (rows out)) (map cells (rows out')).
Proof.
  pose proof (load_data_enumeration_order (pd2 := strict) sample_path
                sample_glob sample_glob_rev sample_read sample_axis
                dir_two "*.dta" (Permutation_rev _)) as H.
  eexists. eexists. split; [vm_compute; reflexivity |].
  split; [vm_compute; reflexivity |].
  vm_compute in H. vm_compute. exact H.
Defined.

(** C9 on a file whose two records each hold a missing-value code. *)
Lemma read_all_records_missing_witness :
  sample_frame cis_all_missing = Raise IndexError /\
  exists e, sample_load dir_all_missing = Raise e.
Proof.
  destruct (read_all_records_missing (pd2 := strict) sample_path sample_glob
              sample_read sample_axis dir_all_missing "*.dta" cis_all_missing
              (stata names_2012_17
                     [ person 0 2016 "09" "99" "1"; person 1 2016 "09" "02" "9" ]))
    as [Hread Hload].
  - reflexivity.
  - apply present_check. vm_compute. reflexivity.
  - constructor.
    + exists "marst", "99". split; [left; reflexivity | reflexivity].
    + constructor; [| constructor].
      exists "dwltyp", "9".
      split; [right; right; right; left; reflexivity | reflexivity].
  - split; [exact Hread |]. apply Hload. right. left. reflexivity.
Defined.

(** C10 on the file of ten records of 2015. *)
Lemma read_only_drops_rows_witness :
  exists raw sel,
    sample_read cis2015 = Ok raw /\
    allowlisted raw = Ok sel /\
    columns (frame_of (sample_frame cis2015)) = columns sel /\
    subseq (rows (frame_of (sample_frame cis2015))) (rows sel) /\
    List.length (rows sel) = 10 /\
    List.length (rows (frame_of (sample_frame cis2015))) = 9.
Proof.
  destruct (read_only_drops_rows (pd2 := strict) sample_path sample_read
              sample_axis cis2015 (frame_of (sample_frame cis2015)))
    as (raw & sel & Hraw & Hsel & Hrows & Hax & Hsub).
  - vm_compute. reflexivity.
  - exists raw, sel. split; [exact Hraw |]. split; [exact Hsel |].
    split; [exact Hax |]. split; [exact Hsub |].
    injection Hraw as <-. rewrite Hrows. split; vm_compute; reflexivity.
Defined.

(** * Further properties of the reader and the loader *)

(** ** Lists and comprehensions *)

Lemma comprehension_first_failure {A B : Type} (f : A -> outcome B)
    (pre post : list A) (x : A) (ys : list B) (e : exn) :
  Forall2 (fun a b => f a = Ok b) pre ys -> f x = Raise e ->
  comprehension f (pre ++ x :: post) = Raise e.
Proof.
  induction 1 as [| a b pre ys Hab _ IH]; intros Hx; simpl.
  - rewrite Hx. reflexivity.
  - rewrite Hab. simpl. rewrite (IH Hx). reflexivity.
Qed.

Lemma filter_first {A : Type} (f : A -> bool) (l : list A) (x : A) (k : list A) :
  filter f l = x :: k ->
  exists pre post,
    l = pre ++ x :: post /\ Forall (fun a => f a = false) pre /\ f x = true.
Proof.
  induction l as [| a l IH]; simpl; [discriminate |].
  destruct (f a) eqn:E.
  - intros H. inversion H; subst. exists [], l. auto.
  - intros H. destruct (IH H) as (pre & post & -> & Hpre & Hx).
    exists (a :: pre), post. auto.
Qed.

Lemma filter_nil_all {A : Type} (f : A -> bool) (l : list A) :
  filter f l = [] -> Forall (fun a => f a = false) l.
Proof.
  induction l as [| a l IH]; simpl; [constructor |].
  destruct (f a) eqn:E; [discriminate |]. intros H. constructor; auto.
Qed.

Lemma filter_skip_first {A : Type} (f : A -> bool) (pre post : list A) (x : A) :
  Forall (fun a => f a = false) pre -> f x = true ->
  filter f (pre ++ x :: post) = x :: filter f post.
Proof.
  intros Hpre Hx. rewrite filter_app, (filter_none f pre Hpre). simpl.
  rewrite Hx. reflexivity.
Qed.

Lemma forallb_false {A : Type} (f : A -> bool) (l : list A) :
  forallb f l = false -> exists x, In x l /\ f x = false.
Proof.
  induction l as [| a l IH]; simpl; [discriminate |].
  destruct (f a) eqn:E; simpl.
  - intros H. destruct (IH H) as (x & Hx & Hfx). exists x. auto.
  - intros _. exists a. auto.
Qed.

(** ** Cells and fields *)

Lemma cell_is_field (df : DataFrame) (col : string) (r : Row) (v : value) :
  In col (columns df) -> v <> no_cell ->
  cell r (col_index (columns df) col) = v -> field df col r = Some v.
Proof.
  intros Hin Hv. unfold field, col_index.
  destruct (positions col (columns df)) as [| i l] eqn:Hp.
  - apply positions_from_nil in Hp. contradiction.
  - cbn [hd]. unfold cell. intros H.
    destruct (nth_error (cells r) i) as [w |] eqn:E.
    + rewrite (nth_error_nth _ _ no_cell E) in H. congruence.
    + apply nth_error_None in E. rewrite nth_overflow in H by exact E.
      congruence.
Qed.

Lemma cell_of_field (df : DataFrame) (col : string) (r : Row) :
  In col (columns df) ->
  cell r (col_index (columns df) col) =
  match field df col r with
  | Some v => v
  | None => no_cell
  end.
Proof.
  intros Hin. unfold field, col_index.
  destruct (positions col (columns df)) as [| i l] eqn:Hp.
  - apply positions_from_nil in Hp. contradiction.
  - cbn [hd]. unfold cell.
    destruct (nth_error (cells r) i) as [w |] eqn:E.
    + apply nth_error_nth. exact E.
    + apply nth_error_None in E. apply nth_overflow. exact E.
Qed.

Lemma passes_codes_false (df : DataFrame) (r : Row) :
  (forall c, In c cols -> In c (columns df)) ->
  passes_codes (columns df) missing_codes r = false -> has_missing_code df r.
Proof.
  intros Hpres H. unfold passes_codes in H. apply forallb_false in H.
  destruct H as ([col code] & Hcc & Hne). cbn [fst snd] in Hne.
  exists col, code. split; [exact Hcc |].
  apply cell_is_field.
  - apply Hpres. exact (missing_codes_in_cols _ Hcc).
  - unfold no_cell. pose proof (missing_codes_nonempty _ Hcc) as Hn.
    cbn [snd] in Hn. congruence.
  - destruct (cell r (col_index (columns df) col)) as [s | n]; cbn [ne_code] in Hne.
    + apply negb_false_iff, String.eqb_eq in Hne. congruence.
    + discriminate Hne.
Qed.

Lemma passes_codes_true (df : DataFrame) (r : Row) :
  (forall c, In c cols -> In c (columns df)) ->
  (passes_codes (columns df) missing_codes r = true <-> ~ has_missing_code df r).
Proof.
  intros Hpres. split.
  - intros H Hhas. rewrite (passes_codes_missing df r Hhas) in H. discriminate H.
  - intros Hno. destruct (passes_codes (columns df) missing_codes r) eqn:E;
      [reflexivity |].
    exfalso. apply Hno. apply passes_codes_false; assumption.
Qed.

Lemma agegp_codes_nonempty (early : bool) (a : string) :
  In a (agegp_codes_for early) -> a <> "".
Proof.
  intros Hin E. subst a. apply existsb_eqb_In in Hin.
  destruct early; vm_compute in Hin; discriminate Hin.
Qed.

(** The age-group test on a record of the file, by its field. *)
Lemma isin_agegp_field (df : DataFrame) (early : bool) (r : Row) :
  In "agegp" (columns df) ->
  (isin_codes (cell r (col_index (columns df) "agegp")) (agegp_codes_for early) = true
   <->
   exists a, field df "agegp" r = Some (VStr a) /\ In a (agegp_codes_for early)).
Proof.
  intros Hin. rewrite isin_codes_true. split.
  - intros (a & Hc & Ha). exists a. split; [| exact Ha].
    apply cell_is_field; [exact Hin | | exact Hc].
    unfold no_cell. pose proof (agegp_codes_nonempty early a Ha). congruence.
  - intros (a & Hf & Ha). exists a. split; [| exact Ha].
    apply field_cell. exact Hf.
Qed.

Lemma getitem_list_Raise (df : DataFrame) (keys : list string) (e : exn) :
  getitem_list df keys = Raise e ->
  e = KeyError /\ exists c, In c keys /\ ~ In c (columns df).
Proof.
  unfold getitem_list.
  destruct (forallb (fun c => existsb (String.eqb c) (columns df)) keys) eqn:E;
    [discriminate |].
  intros H. inversion H. split; [reflexivity |].
  apply forallb_false in E. destruct E as (c & Hc & Hex).
  exists c. split; [exact Hc |]. intros Hin.
  apply existsb_eqb_In in Hin. congruence.
Qed.

Lemma allowlisted_keys (raw sel : DataFrame) :
  allowlisted raw = Ok sel -> forall c, In c cols -> In c (columns (canonical raw)).
Proof.
  intros H. exact (proj1 (getitem_list_keys _ _ _ H)).
Qed.

Lemma in_cols_year : In "year" cols.
Proof. apply existsb_eqb_In. reflexivity. Qed.

Lemma in_cols_agegp : In "agegp" cols.
Proof. apply existsb_eqb_In. reflexivity. Qed.

Lemma Ok_inj {A : Type} (a b : A) : Ok a = Ok b -> a = b.
Proof. intros H. injection H as H. exact H. Qed.

(** ** The reader, from the first record without a missing-value code *)

Section LoaderMore.

Context {pd2 : Pandas2D}.
Variable path : Type.
Variable glob : path -> string -> list path.
Variable read_stata : path -> outcome DataFrame.

Hypothesis stata_axis :
  forall p raw, read_stata p = Ok raw ->
                unique_labels (columns (canonical raw)) = true.

(** With all columns present, the reader comes down to the year cell of
    the first record without a missing-value code, and to one pass over
    the records of the file. *)
Lemma read_from_first (p : path) (raw : DataFrame) (pre post : list Row) (rr0 : Row) :
  read_stata p = Ok raw ->
  (forall c, In c cols -> In c (columns (canonical raw))) ->
  rows raw = pre ++ rr0 :: post ->
  Forall (has_missing_code (canonical raw)) pre ->
  ~ has_missing_code (canonical raw) rr0 ->
  _read_cis_pumf path read_stata p =
    (early <- year_in_2012_17 (cell rr0 (col_index (columns (canonical raw)) "year")) ;;
     Ok {| columns := cols;
           rows :=
             map (take_cells (map (col_index (columns (canonical raw))) cols))
                 (filter (fun rr =>
                            passes_codes (columns (canonical raw)) missing_codes rr &&
                            isin_codes (cell rr (col_index (columns (canonical raw)) "agegp"))
                                       (agegp_codes_for early))
                         (rows raw)) |}).
Proof using stata_axis.
  intros Hraw Hpres Hrows Hpre Hrr0.
  rewrite (read_unfold path read_stata stata_axis p raw Hraw).
  destruct (allowlisted_present raw Hpres) as (sel & Hsel). rewrite Hsel. cbn [bind].
  destruct (allowlisted_rows raw sel (stata_axis p raw Hraw) Hsel) as [_ Hsr].
  unfold filtered. rewrite Hsr, filter_map_swap.
  rewrite (filter_ext _ (passes_codes (columns (canonical raw)) missing_codes))
    by (intros rr; apply passes_codes_take).
  assert (Hk : filter (passes_codes (columns (canonical raw)) missing_codes) (rows raw) =
               rr0 :: filter (passes_codes (columns (canonical raw)) missing_codes) post).
  { rewrite Hrows. apply filter_skip_first.
    - apply Forall_forall. intros rr Hrr. apply passes_codes_missing.
      rewrite Forall_forall in Hpre. auto.
    - apply passes_codes_true; assumption. }
  rewrite Hk. cbn [map]. rewrite (take_cells_cell _ cols rr0 _ "year")
    by (apply nth_col_index, in_cols_year).
  destruct (year_in_2012_17 (cell rr0 (col_index (columns (canonical raw)) "year")))
    as [early | e]; [| reflexivity].
  cbn [bind]. f_equal. f_equal.
  change (take_cells (map (col_index (columns (canonical raw))) cols) rr0
          :: map (take_cells (map (col_index (columns (canonical raw))) cols))
               (filter (passes_codes (columns (canonical raw)) missing_codes) post))
    with (map (take_cells (map (col_index (columns (canonical raw))) cols))
              (rr0 :: filter (passes_codes (columns (canonical raw)) missing_codes) post)).
  rewrite <- Hk, filter_map_swap, filter_filter.
  apply (f_equal (map (take_cells (map (col_index (columns (canonical raw))) cols)))).
  apply filter_ext. intros rr. rewrite passes_agegp_take. reflexivity.
Qed.

(** A frame the reader returns comes from a file with such a record, whose
    year is a number. *)
Lemma read_Ok_first (p : path) (out : DataFrame) :
  _read_cis_pumf path read_stata p = Ok out ->
  exists raw pre rr0 post y,
    read_stata p = Ok raw /\
    (forall c, In c cols -> In c (columns (canonical raw))) /\
    rows raw = pre ++ rr0 :: post /\
    Forall (has_missing_code (canonical raw)) pre /\
    ~ has_missing_code (canonical raw) rr0 /\
    cell rr0 (col_index (columns (canonical raw)) "year") = VNum y /\
    out =
      {| columns := cols;
         rows :=
           map (take_cells (map (col_index (columns (canonical raw))) cols))
               (filter (fun rr =>
                          passes_codes (columns (canonical raw)) missing_codes rr &&
                          isin_codes (cell rr (col_index (columns (canonical raw)) "agegp"))
                                     (agegp_codes_for ((2012 <=? y)%Z && (y <=? 2017)%Z)))
                       (rows raw)) |}.
Proof using stata_axis.
  intros H. pose proof H as H0.
  apply (read_Ok_inv path read_stata stata_axis) in H.
  destruct H as (raw & sel & Hraw & Hsel & Hf).
  pose proof (allowlisted_keys raw sel Hsel) as Hpres.
  destruct (allowlisted_rows raw sel (stata_axis p raw Hraw) Hsel) as [_ Hsr].
  apply filtered_Ok_inv in Hf. destruct Hf as (r0 & kept & early & Hk & _ & _).
  rewrite Hsr, filter_map_swap in Hk.
  rewrite (filter_ext _ (passes_codes (columns (canonical raw)) missing_codes))
    in Hk by (intros rr; apply passes_codes_take).
  destruct (filter (passes_codes (columns (canonical raw)) missing_codes) (rows raw))
    as [| rr0 kept'] eqn:Hfil; [discriminate Hk |].
  apply filter_first in Hfil. destruct Hfil as (pre & post & Hrows & Hpre & Hrr0).
  assert (Hpre' : Forall (has_missing_code (canonical raw)) pre).
  { apply Forall_forall. intros rr Hrr. apply passes_codes_false; [exact Hpres |].
    rewrite Forall_forall in Hpre. auto. }
  assert (Hrr0' : ~ has_missing_code (canonical raw) rr0)
    by (apply passes_codes_true; assumption).
  rewrite (read_from_first p raw pre post rr0 Hraw Hpres Hrows Hpre' Hrr0') in H0.
  destruct (cell rr0 (col_index (columns (canonical raw)) "year")) as [s | y] eqn:Hy;
    cbn [year_in_2012_17 bind] in H0; [discriminate H0 |].
  apply Ok_inj in H0.
  exists raw, pre, rr0, post, y. repeat (split; [assumption |]).
  symmetry. exact H0.
Qed.

(** X1: [load_data] reads the files in the order they are found and stops
    at the first one whose reading fails: it raises the exception of that
    file, whatever the files after it hold. *)
Theorem load_data_first_failure (data_dir : path) (pattern : string)
    (pre post : list path) (p : path) (ds : list DataFrame) (e : exn) :
  glob data_dir pattern = pre ++ p :: post ->
  Forall2 (fun q d => _read_cis_pumf path read_stata q = Ok d) pre ds ->
  _read_cis_pumf path read_stata p = Raise e ->
  load_data path glob read_stata data_dir pattern = Raise e.
Proof using Type.
  intros Hglob Hpre Hp. unfold load_data, tqdm. rewrite Hglob.
  rewrite (comprehension_first_failure _ pre post p ds e Hpre Hp). reflexivity.
Qed.

(** X2: a table is returned only when there was at least one file and
    every file was parsed and passed through the reader without error:
    there is no partial result. *)
Theorem load_data_all_files_read (data_dir : path) (pattern : string) (out : DataFrame) :
  load_data path glob read_stata data_dir pattern = Ok out ->
  glob data_dir pattern <> [] /\
  Forall (fun p => exists raw d,
              read_stata p = Ok raw /\ _read_cis_pumf path read_stata p = Ok d)
         (glob data_dir pattern).
Proof using Type.
  intros H. unfold load_data, tqdm in H.
  apply bind_Ok_inv in H. destruct H as (ds & Hds & Hcat).
  apply comprehension_Ok in Hds. split.
  - intros E. rewrite E in Hds. inversion Hds; subst. discriminate Hcat.
  - clear Hcat. induction Hds as [| p d files ds Hp _ IH]; constructor; [| exact IH].
    destruct (read_stata p) as [raw | e] eqn:Hraw.
    + exists raw, d. auto.
    + unfold _read_cis_pumf in Hp. rewrite Hraw in Hp. discriminate Hp.
Qed.

(** X3: a parsed file makes the reader fail in three ways only: [KeyError]
    when a column of the allowlist is missing after renaming, [IndexError]
    when every record holds a missing-value code, [TypeError] when the
    year of the first record without such a code is not a number. *)
Theorem read_error_causes (p : path) (raw : DataFrame) (e : exn) :
  read_stata p = Ok raw ->
  _read_cis_pumf path read_stata p = Raise e ->
  (e = KeyError /\ exists c, In c cols /\ ~ In c (columns (canonical raw))) \/
  (e = IndexError /\
   (forall c, In c cols -> In c (columns (canonical raw))) /\
   Forall (has_missing_code (canonical raw)) (rows raw)) \/
  (e = TypeError /\
   (forall c, In c cols -> In c (columns (canonical raw))) /\
   exists pre rr0 post,
     rows raw = pre ++ rr0 :: post /\
     Forall (has_missing_code (canonical raw)) pre /\
     ~ has_missing_code (canonical raw) rr0 /\
     forall y, field (canonical raw) "year" rr0 <> Some (VNum y)).
Proof using stata_axis.
  intros Hraw H. pose proof H as H0.
  rewrite (read_unfold path read_stata stata_axis p raw Hraw) in H.
  destruct (allowlisted raw) as [sel | e0] eqn:Hsel; cbn [bind] in H.
  - pose proof (allowlisted_keys raw sel Hsel) as Hpres.
    destruct (allowlisted_rows raw sel (stata_axis p raw Hraw) Hsel) as [_ Hsr].
    unfold filtered in H. rewrite Hsr, filter_map_swap in H.
    rewrite (filter_ext _ (passes_codes (columns (canonical raw)) missing_codes))
      in H by (intros rr; apply passes_codes_take).
    destruct (filter (passes_codes (columns (canonical raw)) missing_codes) (rows raw))
      as [| rr0 kept] eqn:Hfil.
    + right. left. cbn [map] in H. inversion H. split; [reflexivity |].
      split; [exact Hpres |].
      apply filter_nil_all in Hfil. apply Forall_forall. intros rr Hrr.
      apply passes_codes_false; [exact Hpres |].
      rewrite Forall_forall in Hfil. auto.
    + right. right.
      apply filter_first in Hfil. destruct Hfil as (pre & post & Hrows & Hpre & Hrr0).
      assert (Hpre' : Forall (has_missing_code (canonical raw)) pre).
      { apply Forall_forall. intros rr Hrr. apply passes_codes_false; [exact Hpres |].
        rewrite Forall_forall in Hpre. auto. }
      assert (Hrr0' : ~ has_missing_code (canonical raw) rr0)
        by (apply passes_codes_true; assumption).
      rewrite (read_from_first p raw pre post rr0 Hraw Hpres Hrows Hpre' Hrr0') in H0.
      destruct (cell rr0 (col_index (columns (canonical raw)) "year")) as [s | y] eqn:Hy;
        cbn [year_in_2012_17 bind] in H0; [| discriminate H0].
      inversion H0. split; [reflexivity |]. split; [exact Hpres |].
      exists pre, rr0, post. repeat (split; [assumption |]).
      intros y Hf. apply field_cell in Hf. congruence.
  - left. inversion H; subst. unfold allowlisted in Hsel.
    apply getitem_list_Raise in Hsel. exact Hsel.
Qed.

(** X4: for a file with all allowlisted columns, whose first record
    without a missing-value code has the numeric year [y], the reader
    returns a frame on the allowlist that holds exactly the records of the
    file that have no missing-value code and whose age-group code is on
    the list chosen by [y], each cut down to the allowlisted cells. *)
Theorem read_rows_exactly (p : path) (raw : DataFrame)
    (pre post : list Row) (rr0 : Row) (y : Z) :
  read_stata p = Ok raw ->
  (forall c, In c cols -> In c (columns (canonical raw))) ->
  rows raw = pre ++ rr0 :: post ->
  Forall (has_missing_code (canonical raw)) pre ->
  ~ has_missing_code (canonical raw) rr0 ->
  field (canonical raw) "year" rr0 = Some (VNum y) ->
  exists out,
    _read_cis_pumf path read_stata p = Ok out /\
    columns out = cols /\
    forall r,
      In r (rows out) <->
      exists rr,
        In rr (rows raw) /\
        r = take_cells (map (col_index (columns (canonical raw))) cols) rr /\
        ~ has_missing_code (canonical raw) rr /\
        exists a,
          field (canonical raw) "agegp" rr = Some (VStr a) /\
          In a (agegp_codes_for ((2012 <=? y)%Z && (y <=? 2017)%Z)).
Proof using stata_axis.
  intros Hraw Hpres Hrows Hpre Hrr0 Hy.
  pose proof (read_from_first p raw pre post rr0 Hraw Hpres Hrows Hpre Hrr0) as Hread.
  rewrite (field_cell _ _ _ _ Hy) in Hread. cbn [year_in_2012_17 bind] in Hread.
  eexists. split; [exact Hread |]. split; [reflexivity |].
  intros r. cbn [rows]. rewrite in_map_iff. split.
  - intros (rr & <- & Hin). apply filter_In in Hin. destruct Hin as [Hin Hkeep].
    apply andb_true_iff in Hkeep. destruct Hkeep as [Hcodes Hage].
    exists rr. split; [exact Hin |]. split; [reflexivity |].
    split; [apply passes_codes_true; assumption |].
    apply isin_agegp_field; [apply Hpres, in_cols_agegp | exact Hage].
  - intros (rr & Hin & -> & Hno & Hage). exists rr. split; [reflexivity |].
    apply filter_In. split; [exact Hin |]. apply andb_true_iff. split.
    + apply passes_codes_true; assumption.
    + apply isin_agegp_field; [apply Hpres, in_cols_agegp | exact Hage].
Qed.

(** X5: when the age-group filter leaves nothing, the reader returns an
    empty frame on the allowlist rather than raising, and a load of that
    file alone returns an empty table with the allowlisted columns. *)
Theorem read_no_valid_agegp (data_dir : path) (pattern : string)
    (p : path) (raw : DataFrame) (pre post : list Row) (rr0 : Row) (y : Z) :
  read_stata p = Ok raw ->
  (forall c, In c cols -> In c (columns (canonical raw))) ->
  rows raw = pre ++ rr0 :: post ->
  Forall (has_missing_code (canonical raw)) pre ->
  ~ has_missing_code (canonical raw) rr0 ->
  field (canonical raw) "year" rr0 = Some (VNum y) ->
  Forall (fun rr => forall a,
              field (canonical raw) "agegp" rr = Some (VStr a) ->
              ~ In a (agegp_codes_for ((2012 <=? y)%Z && (y <=? 2017)%Z)))
         (rows raw) ->
  _read_cis_pumf path read_stata p = Ok {| columns := cols; rows := [] |} /\
  (glob data_dir pattern = [p] ->
   load_data path glob read_stata data_dir pattern =
     Ok {| columns := cols; rows := [] |}).
Proof using stata_axis.
  intros Hraw Hpres Hrows Hpre Hrr0 Hy Hnone.
  pose proof (read_from_first p raw pre post rr0 Hraw Hpres Hrows Hpre Hrr0) as Hread.
  rewrite (field_cell _ _ _ _ Hy) in Hread. cbn [year_in_2012_17 bind] in Hread.
  rewrite filter_none in Hread.
  - cbn [map] in Hread. split; [exact Hread |]. intros Hglob.
    rewrite (load_Ok_intro path read_stata stata_axis glob data_dir pattern
               [{| columns := cols; rows := [] |}]).
    + reflexivity.
    + rewrite Hglob. constructor; [exact Hread | constructor].
    + discriminate.
  - apply Forall_forall. intros rr Hrr. apply andb_false_iff. right.
    destruct (isin_codes (cell rr (col_index (columns (canonical raw)) "agegp"))
                (agegp_codes_for ((2012 <=? y)%Z && (y <=? 2017)%Z))) eqn:E;
      [| reflexivity].
    exfalso. apply isin_agegp_field in E; [| apply Hpres, in_cols_agegp].
    destruct E as (a & Ha & Hin). rewrite Forall_forall in Hnone.
    exact (Hnone rr Hrr a Ha Hin).
Qed.

(** X6: every frame the reader returns was filtered with one age-group
    list for the whole file: the file has a first record without a
    missing-value code, its year is a number [y], and the age-group code
    of every returned row is on the list chosen by [y]. *)
Theorem read_reference_year (p : path) (out : DataFrame) :
  _read_cis_pumf path read_stata p = Ok out ->
  exists raw pre rr0 post y,
    read_stata p = Ok raw /\
    rows raw = pre ++ rr0 :: post /\
    Forall (has_missing_code (canonical raw)) pre /\
    ~ has_missing_code (canonical raw) rr0 /\
    field (canonical raw) "year" rr0 = Some (VNum y) /\
    Forall (fun r => exists a,
                field out "agegp" r = Some (VStr a) /\
                In a (agegp_codes_for ((2012 <=? y)%Z && (y <=? 2017)%Z)))
           (rows out).
Proof using stata_axis.
  intros H. apply read_Ok_first in H.
  destruct H as (raw & pre & rr0 & post & y & Hraw & Hpres & Hrows & Hpre & Hrr0 & Hy & ->).
  exists raw, pre, rr0, post, y. repeat (split; [assumption |]). split.
  - apply cell_is_field; [apply Hpres, in_cols_year | discriminate | exact Hy].
  - apply Forall_forall. intros r Hr. cbn [rows] in Hr.
    apply in_map_iff in Hr. destruct Hr as (rr & <- & Hin).
    apply filter_In in Hin. destruct Hin as [_ Hkeep].
    apply andb_true_iff in Hkeep. destruct Hkeep as [_ Hage].
    apply isin_codes_true in Hage. destruct Hage as (a & Ha & Hin).
    exists a. split; [| exact Hin].
    rewrite field_on_cols;
      [| reflexivity | exact in_cols_agegp
       | unfold take_cells; cbn [cells]; rewrite !length_map; reflexivity].
    rewrite (take_cells_cell _ cols rr _ "agegp")
      by (apply nth_col_index, in_cols_agegp).
    rewrite Ha. reflexivity.
Qed.

(** X7: the result depends on the allowlisted variables only: two files
    whose records agree, one by one, in label and in the value under every
    allowlisted name are read to the same result, whatever other variables
    they carry and in whatever order the variables come. *)
Theorem read_allowlisted_only (p1 p2 : path) (raw1 raw2 : DataFrame) :
  read_stata p1 = Ok raw1 ->
  read_stata p2 = Ok raw2 ->
  (forall c, In c cols ->
             (In c (columns (canonical raw1)) <-> In c (columns (canonical raw2)))) ->
  Forall2 (fun r1 r2 =>
             label r1 = label r2 /\
             forall c, In c cols ->
                       field (canonical raw1) c r1 = field (canonical raw2) c r2)
          (rows raw1) (rows raw2) ->
  _read_cis_pumf path read_stata p1 = _read_cis_pumf path read_stata p2.
Proof using stata_axis.
  intros Hraw1 Hraw2 Hcols Hrows.
  rewrite (read_unfold path read_stata stata_axis p1 raw1 Hraw1).
  rewrite (read_unfold path read_stata stata_axis p2 raw2 Hraw2).
  assert (Hsame : allowlisted raw1 = allowlisted raw2); [| rewrite Hsame; reflexivity].
  destruct (allowlisted raw1) as [sel1 | e1] eqn:H1.
  - pose proof (allowlisted_keys raw1 sel1 H1) as Hp1.
    assert (Hp2 : forall c, In c cols -> In c (columns (canonical raw2)))
      by (intros c Hc; apply (Hcols c Hc), Hp1, Hc).
    destruct (allowlisted_present raw2 Hp2) as (sel2 & H2). rewrite H2. f_equal.
    destruct (allowlisted_rows raw1 sel1 (stata_axis p1 raw1 Hraw1) H1) as [Hc1 Hr1].
    destruct (allowlisted_rows raw2 sel2 (stata_axis p2 raw2 Hraw2) H2) as [Hc2 Hr2].
    destruct sel1 as [ax1 rs1], sel2 as [ax2 rs2]. cbn [columns rows] in *.
    rewrite Hc1, Hc2, Hr1, Hr2. f_equal.
    clear - Hrows Hp1 Hp2.
    induction Hrows as [| r1 r2 l1 l2 [Hlab Hval] _ IH]; [reflexivity |].
    cbn [map]. rewrite IH. f_equal. unfold take_cells. rewrite Hlab. f_equal.
    rewrite !map_map. apply map_ext_in. intros c Hc.
    rewrite (cell_of_field (canonical raw1) c r1 (Hp1 c Hc)).
    rewrite (cell_of_field (canonical raw2) c r2 (Hp2 c Hc)).
    rewrite (Hval c Hc). reflexivity.
  - unfold allowlisted in H1. apply getitem_list_Raise in H1.
    destruct H1 as (-> & c & Hc & Hmiss). symmetry.
    apply (getitem_list_missing _ _ c Hc). intros Hin.
    apply Hmiss, (Hcols c Hc), Hin.
Qed.

(** X8: when the year of the first record without a missing-value code is
    not a number (a file that stores the year as text), the reader raises
    [TypeError] at the comparison with 2012, and a load that includes the
    file fails. *)
Theorem read_year_not_a_number (data_dir : path) (pattern : string)
    (p : path) (raw : DataFrame) (pre post : list Row) (rr0 : Row) :
  read_stata p = Ok raw ->
  (forall c, In c cols -> In c (columns (canonical raw))) ->
  rows raw = pre ++ rr0 :: post ->
  Forall (has_missing_code (canonical raw)) pre ->
  ~ has_missing_code (canonical raw) rr0 ->
  (forall y, field (canonical raw) "year" rr0 <> Some (VNum y)) ->
  _read_cis_pumf path read_stata p = Raise TypeError /\
  (In p (glob data_dir pattern) ->
   exists e, load_data path glob read_stata data_dir pattern = Raise e).
Proof using stata_axis.
  intros Hraw Hpres Hrows Hpre Hrr0 Hy.
  assert (H : _read_cis_pumf path read_stata p = Raise TypeError).
  { rewrite (read_from_first p raw pre post rr0 Hraw Hpres Hrows Hpre Hrr0).
    destruct (cell rr0 (col_index (columns (canonical raw)) "year")) as [s | y] eqn:E;
      [reflexivity |].
    exfalso. apply (Hy y).
    apply cell_is_field; [apply Hpres, in_cols_year | discriminate | exact E]. }
  split; [exact H |]. intros Hin.
  exact (load_raises path read_stata glob data_dir pattern p TypeError Hin H).
Qed.

End LoaderMore.

(** * The further properties on sample files *)

Import MoreSamples.

Lemma more_axis (p : more_path) (raw : DataFrame) :
  more_read p = Ok raw -> unique_labels (columns (canonical raw)) = true.
Proof.
  intros H. destruct p; try discriminate H; injection H as <-;
    vm_compute; reflexivity.
Qed.

Lemma not_has_missing_check (df : DataFrame) (r : Row) :
  forallb (fun cc => match field df (fst cc) r with
                     | Some (VStr s) => negb (String.eqb s (snd cc))
                     | _ => true
                     end) missing_codes = true ->
  ~ has_missing_code df r.
Proof.
  intros H (col & code & Hcc & Hf).
  exact (no_missing_code_check df r H col code Hcc Hf).
Qed.

Lemma same_field_eq (o1 o2 : option value) : same_field o1 o2 = true -> o1 = o2.
Proof.
  destruct o1 as [[a | a] |], o2 as [[b | b] |]; simpl; try discriminate.
  - intros H. apply String.eqb_eq in H. congruence.
  - intros H. apply Z.eqb_eq in H. congruence.
  - reflexivity.
Qed.

Lemma fields_agree_check (df1 df2 : DataFrame) (r1 r2 : Row) :
  forallb (fun c => same_field (field df1 c r1) (field df2 c r2)) cols = true ->
  forall c, In c cols -> field df1 c r1 = field df2 c r2.
Proof.
  intros H c Hc. rewrite forallb_forall in H. apply same_field_eq. auto.
Qed.

(** X1 on a directory whose second file cannot be parsed and whose third
    lacks a column. *)
Lemma load_data_first_failure_witness :
  more_load [pumf_2014; pumf_corrupt; pumf_no_suit] = Raise ReadError.
Proof.
  apply (load_data_first_failure (pd2 := strict) more_path
           (listing [pumf_2014; pumf_corrupt; pumf_no_suit]) more_read
           more_dir "*.dta" [pumf_2014] [pumf_no_suit] pumf_corrupt
           [frame_of (more_frame pumf_2014)] ReadError).
  - reflexivity.
  - constructor; [vm_compute; reflexivity | constructor].
  - reflexivity.
Defined.

(** X2 on a directory of two files. *)
Lemma load_data_all_files_read_witness :
  listing [pumf_2014; pumf_2020] more_dir "*.dta" <> [] /\
  Forall (fun p => exists raw d, more_read p = Ok raw /\ more_frame p = Ok d)
         (listing [pumf_2014; pumf_2020] more_dir "*.dta").
Proof.
  apply (load_data_all_files_read (pd2 := strict) more_path
           (listing [pumf_2014; pumf_2020]) more_read more_dir "*.dta"
           (frame_of (more_load [pumf_2014; pumf_2020]))).
  vm_compute. reflexivity.
Defined.

(** X3 on the file that stores the year as text. *)
Lemma read_error_causes_witness :
  (TypeError = KeyError /\
   exists c, In c cols /\
             ~ In c (columns (canonical (stata names_2012_17 people_text_year)))) \/
  (TypeError = IndexError /\
   (forall c, In c cols ->
              In c (columns (canonical (stata names_2012_17 people_text_year)))) /\
   Forall (has_missing_code (canonical (stata names_2012_17 people_text_year)))
          (rows (stata names_2012_17 people_text_year))) \/
  (TypeError = TypeError /\
   (forall c, In c cols ->
              In c (columns (canonical (stata names_2012_17 people_text_year)))) /\
   exists pre rr0 post,
     rows (stata names_2012_17 people_text_year) = pre ++ rr0 :: post /\
     Forall (has_missing_code (canonical (stata names_2012_17 people_text_year))) pre /\
     ~ has_missing_code (canonical (stata names_2012_17 people_text_year)) rr0 /\
     forall y, field (canonical (stata names_2012_17 people_text_year)) "year" rr0
               <> Some (VNum y)).
Proof.
  apply (read_error_causes (pd2 := strict) more_path more_read more_axis
           pumf_text_year (stata names_2012_17 people_text_year) TypeError).
  - reflexivity.
  - vm_compute. reflexivity.
Defined.

(** X4 on the file of 2020: of its four records only the one with age
    group '08' and no missing-value code is returned. *)
Lemma read_rows_exactly_witness :
  exists out,
    more_frame pumf_2020 = Ok out /\
    columns out = cols /\
    forall r,
      In r (rows out) <->
      exists rr,
        In rr people_2020 /\
        r = take_cells
              (map (col_index (columns (canonical (stata names_2018_22 people_2020)))) cols)
              rr /\
        ~ has_missing_code (canonical (stata names_2018_22 people_2020)) rr /\
        exists a,
          field (canonical (stata names_2018_22 people_2020)) "agegp" rr = Some (VStr a) /\
          In a agegp_codes_2018_22.
Proof.
  apply (read_rows_exactly (pd2 := strict) more_path more_read more_axis
           pumf_2020 (stata names_2018_22 people_2020)
           [person 0 2020 "08" "99" "1"]
           [person 2 2020 "08" "01" "1"; person 3 2020 "15" "01" "1"]
           (person 1 2020 "05" "01" "1") 2020).
  - reflexivity.
  - apply present_check. vm_compute. reflexivity.
  - reflexivity.
  - constructor; [| constructor].
    exists "marst", "99". split; [left; reflexivity | reflexivity].
  - apply not_has_missing_check. vm_compute. reflexivity.
  - reflexivity.
Defined.

(** X5 on a file of 2020 whose age groups are '05' and '15'. *)
Lemma read_no_valid_agegp_witness :
  more_frame pumf_no_agegp = Ok {| columns := cols; rows := [] |} /\
  more_load [pumf_no_agegp] = Ok {| columns := cols; rows := [] |}.
Proof.
  destruct (read_no_valid_agegp (pd2 := strict) more_path
              (listing [pumf_no_agegp]) more_read more_axis more_dir "*.dta"
              pumf_no_agegp (stata names_2018_22 people_no_agegp)
              [] [person 1 2020 "15" "01" "1"] (person 0 2020 "05" "01" "1") 2020)
    as [Hread Hload].
  - reflexivity.
  - apply present_check. vm_compute. reflexivity.
  - reflexivity.
  - constructor.
  - apply not_has_missing_check. vm_compute. reflexivity.
  - reflexivity.
  - repeat (constructor;
            [intros a Ha Hin; vm_compute in Ha; injection Ha as <-;
             apply existsb_eqb_In in Hin; vm_compute in Hin; discriminate Hin |]).
    constructor.
  - split; [exact Hread | apply Hload; reflexivity].
Defined.

(** X6 on the file of 2020. *)
Lemma read_reference_year_witness :
  exists raw pre rr0 post y,
    more_read pumf_2020 = Ok raw /\
    rows raw = pre ++ rr0 :: post /\
    Forall (has_missing_code (canonical raw)) pre /\
    ~ has_missing_code (canonical raw) rr0 /\
    field (canonical raw) "year" rr0 = Some (VNum y) /\
    Forall (fun r => exists a,
                field (frame_of (more_frame pumf_2020)) "agegp" r = Some (VStr a) /\
                In a (agegp_codes_for ((2012 <=? y)%Z && (y <=? 2017)%Z)))
           (rows (frame_of (more_frame pumf_2020))).
Proof.
  apply (read_reference_year (pd2 := strict) more_path more_read more_axis
           pumf_2020 (frame_of (more_frame pumf_2020))).
  vm_compute. reflexivity.
Defined.

(** X7 on the file of 2014 and the same file with its variables in the
    opposite order. *)
Lemma read_allowlisted_only_witness :
  more_frame pumf_2014 = more_frame pumf_2014_mirrored.
Proof.
  apply (read_allowlisted_only (pd2 := strict) more_path more_read more_axis
           pumf_2014 pumf_2014_mirrored
           (stata names_2012_17 (five 2014 "10"))
           (mirrored (stata names_2012_17 (five 2014 "10")))).
  - reflexivity.
  - reflexivity.
  - intros c Hc. split; intros _; revert c Hc; apply present_check;
      vm_compute; reflexivity.
  - repeat (constructor;
            [split; [reflexivity | apply fields_agree_check; vm_compute; reflexivity] |]).
    constructor.
Defined.

(** X8 on the file that stores the year as text. *)
Lemma read_year_not_a_number_witness :
  more_frame pumf_text_year = Raise TypeError /\
  exists e, more_load [pumf_2014; pumf_text_year] = Raise e.
Proof.
  destruct (read_year_not_a_number (pd2 := strict) more_path
              (listing [pumf_2014; pumf_text_year]) more_read more_axis
              more_dir "*.dta" pumf_text_year
              (stata names_2012_17 people_text_year)
              [with_cell 0 (VStr "2015") (person 0 2015 "09" "01" "9")] []
              (with_cell 0 (VStr "2015") (person 1 2015 "09" "01" "1")))
    as [Hread Hload].
  - reflexivity.
  - apply present_check. vm_compute. reflexivity.
  - reflexivity.
  - constructor; [| constructor].
    exists "dwltyp", "9".
    split; [right; right; right; left; reflexivity | reflexivity].
  - apply not_has_missing_check. vm_compute. reflexivity.
  - intros y H. vm_compute in H. discriminate H.
  - split; [exact Hread | apply Hload; right; left; reflexivity].
Defined.

(** * Files under the names of 2018 and later *)



Section Renaming.

Context {pd2 : Pandas2D}.
Variable path : Type.
Variable read_stata : path -> outcome DataFrame.

Hypothesis stata_axis :
  forall p raw, read_stata p = Ok raw ->
                unique_labels (columns (canonical raw)) = true.


End Renaming.

Import RenamedSamples.




